(** * pyfdisk: the Master Boot Record codec of [fdisk/mbr.py]

    A shallow embedding of the classes of [fdisk/mbr.py] ([PartitionId],
    [LogicalBlockAddress], [CHSAddress], [PartitionEntry],
    [MasterBootRecord]) and of the few Python primitives they call
    ([bytes], slicing, [struct.pack]/[struct.unpack], [io.BytesIO]),
    followed by the properties of the codec.

    Python [int] is [Z]; a [bytes] object is a [list byte]; a raised
    exception is the [Raise] branch of [result]; [None] is [None]. *)

From Stdlib Require Import String.
From Stdlib Require Import ZArith List Bool Lia.
From coqutil Require Import Byte Z.bitblast Word.LittleEndianList.
Import ListNotations.
Local Open Scope Z_scope.

(** ** Python primitives *)

Module Py.

(** The exceptions the module can raise. [struct_error] is [struct.error]. *)
Inductive exn : Set :=
| AssertionError
| ValueError
| TypeError
| IndexError
| struct_error.

Inductive result (A : Type) : Type :=
| Ok (a : A)
| Raise (e : exn).
Arguments Ok {A} a.
Arguments Raise {A} e.

Definition bind {A B} (m : result A) (k : A -> result B) : result B :=
  match m with
  | Ok a => k a
  | Raise e => Raise e
  end.

Definition raises {A} (m : result A) : Prop := exists e, m = Raise e.

(** [assert c], as the interpreter runs it by default (not under [-O]). *)
Definition assert (c : bool) : result unit :=
  if c then Ok tt else Raise AssertionError.

Definition bytes : Type := list byte.

(** [bytes(iterable_of_ints)]: every item must be in [range(0, 256)]. *)
Fixpoint bytes_of_ints (l : list Z) : result bytes :=
  match l with
  | [] => Ok []
  | x :: l' =>
      if (0 <=? x) && (x <? 256)
      then bind (bytes_of_ints l') (fun bs => Ok (byte.of_Z x :: bs))
      else Raise ValueError
  end.

(** [bytes(obj)] on an object that is [None] or has a [__bytes__] method. *)
Definition bytes_of_object {A} (dunder_bytes : A -> result bytes)
  (obj : option A) : result bytes :=
  match obj with
  | Some o => dunder_bytes o
  | None => Raise TypeError
  end.

(** [b[i]] on a bytes object, for a literal index [i >= 0]. *)
Definition getitem (b : bytes) (i : nat) : result Z :=
  match nth_error b i with
  | Some x => Ok (byte.unsigned x)
  | None => Raise IndexError
  end.

(** [l[i]] on a list of offsets. *)
Definition list_getitem (l : list nat) (i : nat) : result nat :=
  match nth_error l i with
  | Some x => Ok x
  | None => Raise IndexError
  end.

(** [b[lo:hi]] for literal bounds [0 <= lo <= hi]; slices clamp. *)
Definition slice (b : bytes) (lo hi : nat) : bytes :=
  firstn (hi - lo) (skipn lo b).

(** [struct.pack("<I", n)] and [struct.pack("<H", n)] *)
Definition struct_pack_I (n : Z) : result bytes :=
  if (0 <=? n) && (n <? 2 ^ 32) then Ok (le_split 4 n) else Raise struct_error.

Definition struct_pack_H (n : Z) : result bytes :=
  if (0 <=? n) && (n <? 2 ^ 16) then Ok (le_split 2 n) else Raise struct_error.

(** [struct.unpack("<I", b)] and [struct.unpack("<H", b)]: the buffer must
    have exactly the size of the format. *)
Definition struct_unpack_I (b : bytes) : result Z :=
  if Nat.eqb (length b) 4 then Ok (le_combine b) else Raise struct_error.

Definition struct_unpack_H (b : bytes) : result Z :=
  if Nat.eqb (length b) 2 then Ok (le_combine b) else Raise struct_error.

(** [struct.unpack("<BxxxBxxxII", b)] *)
Definition struct_unpack_BxxxBxxxII (b : bytes) : result (Z * Z * Z * Z) :=
  if Nat.eqb (length b) 16
  then Ok (byte.unsigned (nth 0 b Byte.x00), byte.unsigned (nth 4 b Byte.x00),
           le_combine (slice b 8 12), le_combine (slice b 12 16))
  else Raise struct_error.

(** [io.BytesIO]: a buffer and a position. *)
Record BytesIO : Type := mkBytesIO { buffer : bytes; position : nat }.

Definition BytesIO_new (initial : bytes) : BytesIO := mkBytesIO initial 0.

(** [wr.seek(off, io.SEEK_SET)] *)
Definition seek (off : nat) (wr : BytesIO) : BytesIO :=
  mkBytesIO (buffer wr) off.

(** [wr.write(bs)]: overwrites at the position, zero-fills a gap past the
    end, extends the buffer when needed, and advances the position. *)
Definition write (bs : bytes) (wr : BytesIO) : BytesIO :=
  let p := position wr in
  let b := buffer wr in
  mkBytesIO
    (firstn p b ++ repeat Byte.x00 (p - length b) ++ bs
       ++ skipn (p + length bs) b)
    (p + length bs).

Definition getvalue (wr : BytesIO) : bytes := buffer wr.

(** What a caller can pass as [fp]: a [bytes]/[bytearray], a readable
    [io.BufferedIOBase] (given by the bytes it still holds: its [read]
    returns bytes; a stream whose [read] raises, such as a closed one, is
    not among the sources), or an object of another type. *)
Inductive source : Type :=
| Buffer (b : bytes)
| Stream (pending : bytes)
| Unsupported.

(** [fp.read(n)] on a stream: at most [n] bytes. *)
Definition stream_read (pending : bytes) (n : nat) : bytes := firstn n pending.

(** [x or d] on an optional int: [None] and [0] are falsy. *)
Definition or_int (x : option Z) (d : Z) : Z :=
  match x with
  | Some n => if n =? 0 then d else n
  | None => d
  end.

(** [==] on optional values: [None] equals only [None]. *)
Definition option_eqb {A} (eqb : A -> A -> bool) (x y : option A) : bool :=
  match x, y with
  | Some a, Some b => eqb a b
  | None, None => true
  | _, _ => false
  end.

(** [==] on lists: same length and equal items. *)
Fixpoint list_eqb {A} (eqb : A -> A -> bool) (x y : list A) : bool :=
  match x, y with
  | [], [] => true
  | a :: x', b :: y' => eqb a b && list_eqb eqb x' y'
  | _, _ => false
  end.

End Py.
Import Py.

Notation "x <- m ;; k" := (bind m (fun x => k))
  (at level 61, m at next level, right associativity).
Notation "' p <- m ;; k" := (bind m (fun 'p => k))
  (at level 61, p pattern, m at next level, right associativity).
Notation "m ;;; k" := (bind m (fun _ => k))
  (at level 61, right associativity).

(** A list comprehension whose body can raise: items left to right. *)
Fixpoint comprehension {A B} (f : A -> result B) (l : list A)
  : result (list B) :=
  match l with
  | [] => Ok []
  | a :: l' => b <- f a ;; bs <- comprehension f l' ;; Ok (b :: bs)
  end.

(** ** [PartitionId], an [IntEnum] *)

Module PartitionId.

(** The members. [EX_FAT], [HPFS] and [QNX2] repeat the value of
    [NT_NTFS]: in a Python enumeration they are aliases, other names of
    the member [NT_NTFS]. *)
Inductive t : Set :=
| EMPTY | FAT12 | XENIX_ROOT | XENIX_USR | DOS_FAT16_LT_32M | DOS_EXTENDED
| DOS_FAT16 | NT_NTFS | OS2_LT_V13 | OS2_BOOT_MANAGER | WIN95_FAT32
| WIN95_FAT32_LBA | WIN95_FAT16_LBA | WIN95_EXT_LBA | HIDDEN_FAT12
| HIDDEN_DOS_FAT16_LT_32M | HIDDEN_DOS_FAT16 | HIDDEN_HPFS
| HIDDEN_WIN95_FAT32 | HIDDEN_WIN95_FAT32_LBA | HIDDEN_WIN95_FAT16_LBA
| PLAN_9 | LINUX_SWAP | LINUX | LINUX_EXTENDED | LINUX_LLVM | HIDDEN_LINUX
| FREEBSD | OPENBSD | NETBSD | HFS_HFS_PLUS | GPT | EFI | LINUX_RAID.

Definition EX_FAT : t := NT_NTFS.
Definition HPFS : t := NT_NTFS.
Definition QNX2 : t := NT_NTFS.

Definition value (m : t) : Z :=
  match m with
  | EMPTY => 0x00
  | FAT12 => 0x01
  | XENIX_ROOT => 0x02
  | XENIX_USR => 0x03
  | DOS_FAT16_LT_32M => 0x04
  | DOS_EXTENDED => 0x05
  | DOS_FAT16 => 0x06
  | NT_NTFS => 0x07
  | OS2_LT_V13 => 0x08
  | OS2_BOOT_MANAGER => 0x0a
  | WIN95_FAT32 => 0x0b
  | WIN95_FAT32_LBA => 0x0c
  | WIN95_FAT16_LBA => 0x0e
  | WIN95_EXT_LBA => 0x0f
  | HIDDEN_FAT12 => 0x11
  | HIDDEN_DOS_FAT16_LT_32M => 0x14
  | HIDDEN_DOS_FAT16 => 0x16
  | HIDDEN_HPFS => 0x17
  | HIDDEN_WIN95_FAT32 => 0x1b
  | HIDDEN_WIN95_FAT32_LBA => 0x1c
  | HIDDEN_WIN95_FAT16_LBA => 0x1e
  | PLAN_9 => 0x39
  | LINUX_SWAP => 0x82
  | LINUX => 0x83
  | LINUX_EXTENDED => 0x85
  | LINUX_LLVM => 0x8e
  | HIDDEN_LINUX => 0x93
  | FREEBSD => 0xa5
  | OPENBSD => 0xa6
  | NETBSD => 0xa9
  | HFS_HFS_PLUS => 0xaf
  | GPT => 0xee
  | EFI => 0xef
  | LINUX_RAID => 0xfd
  end.

(** [PartitionId.__members__]: every name, aliases included, in the order
    of the class body. *)
Definition members : list (string * t) :=
  [ ("EMPTY", EMPTY); ("FAT12", FAT12); ("XENIX_ROOT", XENIX_ROOT);
    ("XENIX_USR", XENIX_USR); ("DOS_FAT16_LT_32M", DOS_FAT16_LT_32M);
    ("DOS_EXTENDED", DOS_EXTENDED); ("DOS_FAT16", DOS_FAT16);
    ("NT_NTFS", NT_NTFS); ("EX_FAT", EX_FAT); ("HPFS", HPFS);
    ("QNX2", QNX2); ("OS2_LT_V13", OS2_LT_V13);
    ("OS2_BOOT_MANAGER", OS2_BOOT_MANAGER); ("WIN95_FAT32", WIN95_FAT32);
    ("WIN95_FAT32_LBA", WIN95_FAT32_LBA);
    ("WIN95_FAT16_LBA", WIN95_FAT16_LBA); ("WIN95_EXT_LBA", WIN95_EXT_LBA);
    ("HIDDEN_FAT12", HIDDEN_FAT12);
    ("HIDDEN_DOS_FAT16_LT_32M", HIDDEN_DOS_FAT16_LT_32M);
    ("HIDDEN_DOS_FAT16", HIDDEN_DOS_FAT16); ("HIDDEN_HPFS", HIDDEN_HPFS);
    ("HIDDEN_WIN95_FAT32", HIDDEN_WIN95_FAT32);
    ("HIDDEN_WIN95_FAT32_LBA", HIDDEN_WIN95_FAT32_LBA);
    ("HIDDEN_WIN95_FAT16_LBA", HIDDEN_WIN95_FAT16_LBA); ("PLAN_9", PLAN_9);
    ("LINUX_SWAP", LINUX_SWAP); ("LINUX", LINUX);
    ("LINUX_EXTENDED", LINUX_EXTENDED); ("LINUX_LLVM", LINUX_LLVM);
    ("HIDDEN_LINUX", HIDDEN_LINUX); ("FREEBSD", FREEBSD);
    ("OPENBSD", OPENBSD); ("NETBSD", NETBSD);
    ("HFS_HFS_PLUS", HFS_HFS_PLUS); ("GPT", GPT); ("EFI", EFI);
    ("LINUX_RAID", LINUX_RAID) ]%string.

(** [v in PartitionId.__members__.values()]: an int equals a member when
    it equals the member's value. *)
Definition in_members_values (v : Z) : bool :=
  existsb (fun m => value m =? v) (map snd members).

(** [PartitionId(v)]: the member with value [v] (the first one defined
    with it), [ValueError] when there is none. *)
Definition call (v : Z) : result t :=
  match find (fun m => value m =? v) (map snd members) with
  | Some m => Ok m
  | None => Raise ValueError
  end.

End PartitionId.

(** ** [LogicalBlockAddress] *)

Definition SECTOR_SIZE : Z := 512.

Module LogicalBlockAddress.

Record t : Set := mk { sector : Z }.

Definition byte_offset (self : t) : Z := sector self * SECTOR_SIZE.

Definition __bytes__ (self : t) : result bytes := struct_pack_I (sector self).

Definition eqb (a b : t) : bool := sector a =? sector b.

End LogicalBlockAddress.

(** ** [CHSAddress] *)

Module CHSAddress.

Record t : Set := mk { cylinder : Z; head : Z; sector : Z }.

Definition parse (b : bytes) : result t :=
  b0 <- getitem b 0 ;;
  b1 <- getitem b 1 ;;
  let head := b0 in
  let sector := Z.land b1 0x3F in
  b2 <- getitem b 2 ;;
  let cylinder := Z.lor b2 (Z.shiftl (Z.shiftr b1 6) 8) in
  Ok (mk cylinder head sector).

Definition __bytes__ (self : t) : result bytes :=
  assert ((0 <=? cylinder self) && (cylinder self <=? 1024)) ;;;
  assert ((0 <=? head self) && (head self <=? 255)) ;;;
  assert ((0 <=? sector self) && (sector self <=? 63)) ;;;
  let b1 := head self in
  let b2 := Z.lor (sector self) (Z.shiftl (Z.shiftr (cylinder self) 8) 6) in
  let b3 := Z.land (cylinder self) 0xFF in
  bytes_of_ints [b1; b2; b3].

Definition eqb (a b : t) : bool :=
  (cylinder a =? cylinder b) && (head a =? head b) && (sector a =? sector b).

(** The range the format can hold: 10, 8 and 6 bits. *)
Definition in_range (a : t) : Prop :=
  0 <= cylinder a <= 1023 /\ 0 <= head a <= 255 /\ 0 <= sector a <= 63.

End CHSAddress.

(** ** [PartitionEntry] *)

Definition PARTITION_ENTRY_SIZE : nat := 16.

Module PartitionEntry.

(** [Union[int, PartitionId]] *)
Inductive int_or_PartitionId : Set :=
| Int (n : Z)
| Id (m : PartitionId.t).

(** [int(partition_type)] *)
Definition int (p : int_or_PartitionId) : Z :=
  match p with
  | Int n => n
  | Id m => PartitionId.value m
  end.

Record t : Set := mk {
  bootable : bool;
  partition_type : int_or_PartitionId;
  start_block_address : LogicalBlockAddress.t;
  sector_count : Z;
  start_chs : option CHSAddress.t;
  end_chs : option CHSAddress.t
}.

Definition end_block_address (self : t) : LogicalBlockAddress.t :=
  if sector_count self =? 0 then start_block_address self
  else LogicalBlockAddress.mk
         (LogicalBlockAddress.sector (start_block_address self)
          + sector_count self - 1).

Definition byte_count (self : t) : Z := sector_count self * SECTOR_SIZE.

Definition read (fp : source) : result (option t) :=
  let bootable_partition_flag := 0x80 in
  raw <- match fp with
         | Buffer b => Ok b
         | Stream pending => Ok (stream_read pending PARTITION_ENTRY_SIZE)
         | Unsupported => Raise ValueError
         end ;;
  if (length raw <? PARTITION_ENTRY_SIZE)%nat then Ok None
  else
    ' (attrib, part_type, lba_start, sector_count) <-
        struct_unpack_BxxxBxxxII raw ;;
    part_type <- (if PartitionId.in_members_values part_type
                  then m <- PartitionId.call part_type ;; Ok (Id m)
                  else Ok (Int part_type)) ;;
    start_chs <- CHSAddress.parse (slice raw 1 4) ;;
    end_chs <- CHSAddress.parse (slice raw 5 8) ;;
    Ok (Some (mk (negb (Z.land attrib bootable_partition_flag =? 0))
                 part_type
                 (LogicalBlockAddress.mk lba_start)
                 sector_count (Some start_chs) (Some end_chs))).

Definition __bytes__ (self : t) : result bytes :=
  b0 <- bytes_of_ints [if bootable self then 0x80 else 0x00] ;;
  b1 <- bytes_of_object CHSAddress.__bytes__ (start_chs self) ;;
  b2 <- bytes_of_ints [int (partition_type self)] ;;
  b3 <- bytes_of_object CHSAddress.__bytes__ (end_chs self) ;;
  b4 <- LogicalBlockAddress.__bytes__ (start_block_address self) ;;
  b5 <- struct_pack_I (sector_count self) ;;
  Ok (b0 ++ b1 ++ b2 ++ b3 ++ b4 ++ b5).

(** [==] between an int and an [IntEnum] member compares the int values. *)
Definition partition_type_eqb (a b : int_or_PartitionId) : bool :=
  int a =? int b.

(** The dataclass [__eq__]: the tuples of fields are compared with [==]. *)
Definition eqb (a b : t) : bool :=
  Bool.eqb (bootable a) (bootable b)
  && partition_type_eqb (partition_type a) (partition_type b)
  && LogicalBlockAddress.eqb (start_block_address a) (start_block_address b)
  && (sector_count a =? sector_count b)
  && option_eqb CHSAddress.eqb (start_chs a) (start_chs b)
  && option_eqb CHSAddress.eqb (end_chs a) (end_chs b).

End PartitionEntry.

(** ** [MasterBootRecord] *)

Definition UNIQUE_ID_OFFSET : nat := 0x1B8.
Definition UNIQUE_ID_SIZE : nat := 4.
Definition PARTITION_OFFSETS : list nat := [0x1BE; 0x1CE; 0x1DE; 0x1EE]%nat.
Definition VALID_BOOT_SECTOR_OFFSET : nat := 0x1FE.
Definition VALID_BOOT_SECTOR_SIZE : nat := 2.
Definition VALID_MARKER : Z := 0xaa55.
Definition MBR_SIZE : nat := 512.

Module MasterBootRecord.

Record t : Set := mk {
  unique_id : option Z;
  partitions : list (option PartitionEntry.t)
}.

Definition read (fp : source) (ignore_valid_marker : bool)
  : result (option t) :=
  data <- match fp with
          | Buffer b => Ok b
          | Stream pending => Ok (stream_read pending MBR_SIZE)
          | Unsupported => Raise ValueError
          end ;;
  unique_id <- struct_unpack_I
                 (slice data UNIQUE_ID_OFFSET
                    (UNIQUE_ID_OFFSET + UNIQUE_ID_SIZE)) ;;
  partitions <- comprehension
                  (fun offset =>
                     PartitionEntry.read
                       (Buffer (slice data offset
                                  (offset + PARTITION_ENTRY_SIZE))))
                  PARTITION_OFFSETS ;;
  valid_marker <- struct_unpack_H
                    (slice data VALID_BOOT_SECTOR_OFFSET
                       (VALID_BOOT_SECTOR_OFFSET + VALID_BOOT_SECTOR_SIZE)) ;;
  if ignore_valid_marker || (valid_marker =? VALID_MARKER)
  then Ok (Some (mk (Some unique_id) partitions))
  else Ok None.

(** The loop [for i, partition in enumerate(self.partitions)], from
    index [i] on. *)
Fixpoint write_partitions (i : nat) (ps : list (option PartitionEntry.t))
  (wr : BytesIO) : result BytesIO :=
  match ps with
  | [] => Ok wr
  | partition :: rest =>
      offset <- list_getitem PARTITION_OFFSETS i ;;
      let wr := seek offset wr in
      bs <- bytes_of_object PartitionEntry.__bytes__ partition ;;
      write_partitions (S i) rest (write bs wr)
  end.

Definition __bytes__ (self : t) : result bytes :=
  let wr := BytesIO_new (repeat Byte.x00 512) in
  let wr := seek UNIQUE_ID_OFFSET wr in
  id <- struct_pack_I (or_int (unique_id self) 0) ;;
  let wr := write id wr in
  wr <- write_partitions 0 (partitions self) wr ;;
  let wr := seek VALID_BOOT_SECTOR_OFFSET wr in
  marker <- struct_pack_H VALID_MARKER ;;
  let wr := write marker wr in
  Ok (getvalue wr).

(** The dataclass [__eq__]. *)
Definition eqb (a b : t) : bool :=
  option_eqb Z.eqb (unique_id a) (unique_id b)
  && list_eqb (option_eqb PartitionEntry.eqb) (partitions a) (partitions b).

End MasterBootRecord.

(** ** Values used to state the properties *)

(** The type [PartitionEntry.read] gives to a type byte: the member for a
    registered value, the int otherwise. *)
Definition decoded_type (v : Z) : result PartitionEntry.int_or_PartitionId :=
  if PartitionId.in_members_values v
  then m <- PartitionId.call v ;; Ok (PartitionEntry.Id m)
  else Ok (PartitionEntry.Int v).

(** The address [CHSAddress.parse] reads in three bytes. *)
Definition decoded_chs (b0 b1 b2 : byte) : CHSAddress.t :=
  CHSAddress.mk
    (Z.lor (byte.unsigned b2) (Z.shiftl (Z.shiftr (byte.unsigned b1) 6) 8))
    (byte.unsigned b0)
    (Z.land (byte.unsigned b1) 0x3F).

(** The fields of an entry fit the 16-byte slot: a one-byte type and
    two unsigned 32-bit integers. *)
Definition entry_fits (e : PartitionEntry.t) : Prop :=
  0 <= PartitionEntry.int (PartitionEntry.partition_type e) < 256
  /\ 0 <= LogicalBlockAddress.sector (PartitionEntry.start_block_address e)
       < 2 ^ 32
  /\ 0 <= PartitionEntry.sector_count e < 2 ^ 32.

(** An optional CHS field that is present and in range. *)
Definition chs_in_range (o : option CHSAddress.t) : Prop :=
  exists a, o = Some a /\ CHSAddress.in_range a.

(** The four partition slots of a buffer, as [read] decodes them. *)
Definition read_slots (data : bytes)
  : result (list (option PartitionEntry.t)) :=
  comprehension
    (fun offset =>
       PartitionEntry.read
         (Buffer (slice data offset (offset + PARTITION_ENTRY_SIZE))))
    PARTITION_OFFSETS.

(** The sector [__bytes__] writes: zeros, the disk signature, two
    zeros, the four slots and the marker. *)
Definition sector_image (id bs1 bs2 bs3 bs4 : bytes) : bytes :=
  repeat Byte.x00 0x1B8 ++ id ++ [Byte.x00; Byte.x00]
    ++ bs1 ++ bs2 ++ bs3 ++ bs4 ++ [Byte.x55; Byte.xaa].

(** A slot that holds an entry fitting its 16 bytes, CHS fields present
    and in range. *)
Definition slot_fits (o : option PartitionEntry.t) : Prop :=
  exists e, o = Some e /\ entry_fits e
            /\ chs_in_range (PartitionEntry.start_chs e)
            /\ chs_in_range (PartitionEntry.end_chs e).

(** A disk signature that is absent or an unsigned 32-bit integer. *)
Definition signature_fits (uid : option Z) : Prop :=
  match uid with
  | Some u => 0 <= u < 2 ^ 32
  | None => True
  end.

(** The record of a sector: its signature is the little-endian integer
    of the four bytes at 0x1B8, and its four slots hold the entries that
    [PartitionEntry.read] decodes from the 16 bytes at 0x1BE, 0x1CE,
    0x1DE and 0x1EE, each of them fitting its slot. *)
Definition record_of_sector (data : bytes) (r : MasterBootRecord.t) : Prop :=
  exists p1 p2 p3 p4,
    r = MasterBootRecord.mk
          (Some (le_combine (slice data 0x1B8 0x1BC)))
          [Some p1; Some p2; Some p3; Some p4]
    /\ PartitionEntry.read (Buffer (slice data 0x1BE 0x1CE)) = Ok (Some p1)
    /\ PartitionEntry.read (Buffer (slice data 0x1CE 0x1DE)) = Ok (Some p2)
    /\ PartitionEntry.read (Buffer (slice data 0x1DE 0x1EE)) = Ok (Some p3)
    /\ PartitionEntry.read (Buffer (slice data 0x1EE 0x1FE)) = Ok (Some p4)
    /\ slot_fits (Some p1) /\ slot_fits (Some p2)
    /\ slot_fits (Some p3) /\ slot_fits (Some p4).

(** Encoding [m] and decoding the result, marker checked, gives a record
    equal ([==]) to [m]. *)
Definition mbr_roundtrips (m : MasterBootRecord.t) : Prop :=
  exists bs r,
    MasterBootRecord.__bytes__ m = Ok bs
    /\ MasterBootRecord.read (Buffer bs) false = Ok (Some r)
    /\ MasterBootRecord.eqb r m = true.

(** The entry whose 16 bytes are all zero. *)
Definition zero_entry : PartitionEntry.t :=
  PartitionEntry.mk false (PartitionEntry.Int 0) (LogicalBlockAddress.mk 0) 0
    (Some (CHSAddress.mk 0 0 0)) (Some (CHSAddress.mk 0 0 0)).

(** The 16 bytes of a slot after its attribute byte is reduced to the
    bootable bit. *)
Definition normalized_slot (b : bytes) : bytes :=
  (if Z.testbit (byte.unsigned (hd Byte.x00 b)) 7 then Byte.x80 else Byte.x00)
  :: tl b.

(** The ranges the assertions of [CHSAddress.__bytes__] accept. *)
Definition chs_asserted (a : CHSAddress.t) : Prop :=
  0 <= CHSAddress.cylinder a <= 1024
  /\ 0 <= CHSAddress.head a <= 255
  /\ 0 <= CHSAddress.sector a <= 63.

(** The bytes of the slots of a record, as the loop of
    [MasterBootRecord.__bytes__] gets them with [bytes(partition)]. *)
Definition encode_slots (ps : list (option PartitionEntry.t))
  : result (list bytes) :=
  comprehension (bytes_of_object PartitionEntry.__bytes__) ps.

(** A slot nothing was written to. *)
Definition zero_slot : bytes := repeat Byte.x00 16.

(** * Properties *)

Ltac bool_true :=
  rewrite ?andb_true_iff, ?Z.leb_le, ?Z.ltb_lt; repeat split; lia.

(** ** Bytes and little-endian integers *)

Lemma unsigned_of_Z_small (z : Z) :
  0 <= z < 256 -> byte.unsigned (byte.of_Z z) = z.
Proof.
  intros Hz. rewrite byte.unsigned_of_Z. unfold byte.wrap.
  apply Z.mod_small. change (2 ^ 8) with 256. lia.
Qed.

Lemma unsigned_range_256 (b : byte) : 0 <= byte.unsigned b < 256.
Proof. exact (byte.unsigned_range b). Qed.

Lemma bytes_of_ints_ok (l : list Z) :
  Forall (fun x => 0 <= x < 256) l ->
  bytes_of_ints l = Ok (map byte.of_Z l).
Proof.
  induction 1 as [|x l Hx _ IH]; simpl; [reflexivity|].
  replace ((0 <=? x) && (x <? 256)) with true
    by (symmetry; apply andb_true_iff; split;
        [apply Z.leb_le | apply Z.ltb_lt]; lia).
  rewrite IH. reflexivity.
Qed.

Lemma bytes_of_ints_unsigned (bs : bytes) :
  bytes_of_ints (map byte.unsigned bs) = Ok bs.
Proof.
  rewrite bytes_of_ints_ok.
  - rewrite map_map.
    rewrite (map_ext _ (fun b => b) byte.of_Z_unsigned), map_id. reflexivity.
  - apply Forall_forall. intros x Hx. apply in_map_iff in Hx.
    destruct Hx as [b [<- _]]. apply unsigned_range_256.
Qed.

(** ** Two bit fields packed in one integer *)

Section BitFields.

Variables (n lo y : Z).
Hypothesis Hn : 0 <= n.
Hypothesis Hlo : 0 <= lo < 2 ^ n.

Lemma shiftr_lor_shiftl : Z.shiftr (Z.lor lo (Z.shiftl y n)) n = y.
Proof.
  rewrite Z.shiftr_lor, Z.shiftr_shiftl_l, Z.sub_diag, Z.shiftl_0_r by lia.
  rewrite Z.shiftr_div_pow2, Z.div_small by lia.
  apply Z.lor_0_l.
Qed.

Lemma land_shiftl_disjoint : Z.land lo (Z.shiftl y n) = 0.
Proof.
  apply Z.bits_inj'. intros i Hi.
  rewrite Z.land_spec, Z.bits_0.
  destruct (Z.lt_ge_cases i n) as [Hlt | Hge].
  - rewrite Z.shiftl_spec_low by exact Hlt. apply andb_false_r.
  - rewrite <- (Z.mod_small lo (2 ^ n)) by exact Hlo.
    rewrite Z.mod_pow2_bits_high by lia. reflexivity.
Qed.

Lemma land_lor_shiftl : Z.land (Z.lor lo (Z.shiftl y n)) (Z.ones n) = lo.
Proof.
  rewrite Z.land_ones by exact Hn.
  rewrite Z.or_to_plus by exact land_shiftl_disjoint.
  rewrite Z.shiftl_mul_pow2 by exact Hn.
  rewrite Z.mod_add by lia.
  apply Z.mod_small. exact Hlo.
Qed.

End BitFields.

Lemma lor_land_shiftr (x n : Z) :
  0 <= n -> Z.lor (Z.land x (Z.ones n)) (Z.shiftl (Z.shiftr x n) n) = x.
Proof.
  intros Hn. Z.bitblast.
Qed.

(** ** The packed CHS triple *)

Section CHSBits.

Variables hi lo : Z.
Hypothesis Hlo : 0 <= lo < 256.

(** The ten-bit cylinder put together by [parse]. *)
Lemma cylinder_bits_range :
  0 <= hi < 256 -> 0 <= Z.lor lo (Z.shiftl (Z.shiftr hi 6) 8) <= 1023.
Proof.
  intros Hhi.
  rewrite Z.or_to_plus by (apply land_shiftl_disjoint; [lia | exact Hlo]).
  rewrite Z.shiftl_mul_pow2, Z.shiftr_div_pow2 by lia.
  change (2 ^ 8) with 256. change (2 ^ 6) with 64.
  pose proof (Z.div_mod hi 64 ltac:(lia)).
  pose proof (Z.mod_pos_bound hi 64 ltac:(lia)).
  lia.
Qed.

Lemma sector_bits_range : 0 <= Z.land hi 0x3F <= 63.
Proof.
  change (Z.land hi 0x3F) with (Z.land hi (Z.ones 6)).
  rewrite Z.land_ones by lia.
  pose proof (Z.mod_pos_bound hi (2 ^ 6) eq_refl).
  change (2 ^ 6) with 64 in *. lia.
Qed.

(** Packing what [parse] took apart gives the two bytes back. *)
Lemma repack_second_byte :
  Z.lor (Z.land hi 0x3F)
    (Z.shiftl (Z.shiftr (Z.lor lo (Z.shiftl (Z.shiftr hi 6) 8)) 8) 6) = hi.
Proof.
  rewrite shiftr_lor_shiftl by (lia || exact Hlo).
  exact (lor_land_shiftr hi 6 ltac:(lia)).
Qed.

Lemma repack_third_byte :
  Z.land (Z.lor lo (Z.shiftl (Z.shiftr hi 6) 8)) 0xFF = lo.
Proof.
  exact (land_lor_shiftl 8 lo (Z.shiftr hi 6) ltac:(lia) Hlo).
Qed.

End CHSBits.

Section CHSPack.

Variables c s : Z.
Hypothesis Hc : 0 <= c <= 1023.
Hypothesis Hs : 0 <= s <= 63.

Let s_small : 0 <= s < 2 ^ 6.
Proof. change (2 ^ 6) with 64. lia. Qed.

(** The second byte written by [__bytes__] is a byte. *)
Lemma packed_second_byte_range :
  0 <= Z.lor s (Z.shiftl (Z.shiftr c 8) 6) < 256.
Proof.
  rewrite Z.or_to_plus by (apply land_shiftl_disjoint; [lia | exact s_small]).
  rewrite Z.shiftl_mul_pow2, Z.shiftr_div_pow2 by lia.
  change (2 ^ 8) with 256. change (2 ^ 6) with 64.
  pose proof (Z.div_mod c 256 ltac:(lia)).
  pose proof (Z.mod_pos_bound c 256 ltac:(lia)).
  lia.
Qed.

Lemma packed_third_byte_range : 0 <= Z.land c 0xFF < 256.
Proof.
  change 0xFF with (Z.ones 8). rewrite Z.land_ones by lia.
  exact (Z.mod_pos_bound c (2 ^ 8) eq_refl).
Qed.

Lemma unpack_sector :
  Z.land (Z.lor s (Z.shiftl (Z.shiftr c 8) 6)) 0x3F = s.
Proof.
  exact (land_lor_shiftl 6 s (Z.shiftr c 8) ltac:(lia) s_small).
Qed.

Lemma unpack_cylinder :
  Z.lor (Z.land c 0xFF)
    (Z.shiftl (Z.shiftr (Z.lor s (Z.shiftl (Z.shiftr c 8) 6)) 6) 8) = c.
Proof.
  rewrite shiftr_lor_shiftl by (lia || exact s_small).
  exact (lor_land_shiftr c 8 ltac:(lia)).
Qed.

End CHSPack.

(** ** [CHSAddress]: what [parse] and [__bytes__] compute *)

Lemma CHSAddress_parse_three (b0 b1 b2 : byte) :
  CHSAddress.parse [b0; b1; b2] =
  Ok (CHSAddress.mk
        (Z.lor (byte.unsigned b2)
           (Z.shiftl (Z.shiftr (byte.unsigned b1) 6) 8))
        (byte.unsigned b0)
        (Z.land (byte.unsigned b1) 0x3F)).
Proof. reflexivity. Qed.

Lemma CHSAddress_parse_in_range (b0 b1 b2 : byte) (a : CHSAddress.t) :
  CHSAddress.parse [b0; b1; b2] = Ok a -> CHSAddress.in_range a.
Proof.
  rewrite CHSAddress_parse_three. intros E.
  apply (f_equal (fun r => match r with Ok x => x | Raise _ => a end)) in E.
  subst a. unfold CHSAddress.in_range.
  cbn [CHSAddress.cylinder CHSAddress.head CHSAddress.sector].
  pose proof (unsigned_range_256 b0) as H0.
  pose proof (unsigned_range_256 b1) as H1.
  pose proof (unsigned_range_256 b2) as H2.
  pose proof (cylinder_bits_range _ _ H2 H1).
  pose proof (sector_bits_range (byte.unsigned b1)).
  lia.
Qed.

Lemma CHSAddress_to_bytes_in_range (a : CHSAddress.t) :
  CHSAddress.in_range a ->
  CHSAddress.__bytes__ a =
  Ok [ byte.of_Z (CHSAddress.head a);
       byte.of_Z (Z.lor (CHSAddress.sector a)
                    (Z.shiftl (Z.shiftr (CHSAddress.cylinder a) 8) 6));
       byte.of_Z (Z.land (CHSAddress.cylinder a) 0xFF) ].
Proof.
  destruct a as [c h s]. unfold CHSAddress.in_range, CHSAddress.__bytes__.
  cbn [CHSAddress.cylinder CHSAddress.head CHSAddress.sector].
  intros (Hc & Hh & Hs).
  replace ((0 <=? c) && (c <=? 1024)) with true by (symmetry; bool_true).
  replace ((0 <=? h) && (h <=? 255)) with true by (symmetry; bool_true).
  replace ((0 <=? s) && (s <=? 63)) with true by (symmetry; bool_true).
  cbn [assert bind].
  rewrite bytes_of_ints_ok; [reflexivity|].
  pose proof (packed_second_byte_range c s Hc Hs).
  pose proof (packed_third_byte_range c).
  repeat constructor; lia.
Qed.

(** A cylinder of 1024 passes the assertions of [__bytes__], and then
    does not fit the second byte. *)
Lemma CHSAddress_to_bytes_1024 (h s : Z) :
  0 <= h <= 255 -> 0 <= s <= 63 ->
  CHSAddress.__bytes__ (CHSAddress.mk 1024 h s) = Raise ValueError.
Proof.
  intros Hh Hs. unfold CHSAddress.__bytes__.
  cbn [CHSAddress.cylinder CHSAddress.head CHSAddress.sector].
  replace ((0 <=? h) && (h <=? 255)) with true by (symmetry; bool_true).
  replace ((0 <=? s) && (s <=? 63)) with true by (symmetry; bool_true).
  cbn [assert bind Z.leb Z.compare Pos.compare Pos.compare_cont andb].
  change (Z.shiftl (Z.shiftr 1024 8) 6) with (Z.shiftl 1 8).
  unfold bytes_of_ints.
  replace ((0 <=? h) && (h <? 256)) with true by (symmetry; bool_true).
  assert (Hor : Z.lor s (Z.shiftl 1 8) = s + 256).
  { rewrite Z.or_to_plus; [reflexivity|].
    apply land_shiftl_disjoint; [lia | change (2 ^ 8) with 256; lia]. }
  rewrite Hor.
  replace (s + 256 <? 256) with false by (symmetry; apply Z.ltb_ge; lia).
  rewrite andb_false_r. reflexivity.
Qed.

Lemma CHSAddress_to_bytes_out_of_range (a : CHSAddress.t) :
  ~ CHSAddress.in_range a -> raises (CHSAddress.__bytes__ a).
Proof.
  destruct a as [c h s]. unfold CHSAddress.in_range.
  cbn [CHSAddress.cylinder CHSAddress.head CHSAddress.sector].
  intros Hout.
  destruct (Z.eq_dec c 1024) as [-> | Hc];
    [destruct (Z.leb_spec 0 h), (Z.leb_spec h 255),
       (Z.leb_spec 0 s), (Z.leb_spec s 63) |];
    try (eexists; apply CHSAddress_to_bytes_1024; lia).
  all: unfold CHSAddress.__bytes__, assert;
    cbn [CHSAddress.cylinder CHSAddress.head CHSAddress.sector].
  all: try (destruct (Z.leb_spec 0 c), (Z.leb_spec c 1024)).
  all: destruct (Z.leb_spec 0 h), (Z.leb_spec h 255),
         (Z.leb_spec 0 s), (Z.leb_spec s 63); cbn.
  all: try (eexists; reflexivity).
  all: exfalso; lia.
Qed.

(** ** [struct]: 32-bit little-endian integers *)

Lemma struct_pack_I_ok (n : Z) :
  0 <= n < 2 ^ 32 -> struct_pack_I n = Ok (le_split 4 n).
Proof.
  intros Hn. unfold struct_pack_I.
  replace ((0 <=? n) && (n <? 2 ^ 32)) with true by (symmetry; bool_true).
  reflexivity.
Qed.

Lemma le_combine_four_range (b : bytes) :
  length b = 4%nat -> 0 <= le_combine b < 2 ^ 32.
Proof.
  intros Hb. pose proof (le_combine_bound b) as H. rewrite Hb in H. exact H.
Qed.

Lemma struct_pack_unpack_I (b : bytes) :
  length b = 4%nat -> struct_pack_I (le_combine b) = Ok b.
Proof.
  intros Hb. rewrite struct_pack_I_ok by (apply le_combine_four_range, Hb).
  rewrite <- Hb. rewrite split_le_combine. reflexivity.
Qed.

Lemma le_combine_split_four (n : Z) :
  0 <= n < 2 ^ 32 -> le_combine (le_split 4 n) = n.
Proof.
  intros Hn. rewrite le_combine_split. apply Z.mod_small. exact Hn.
Qed.

(** ** [PartitionEntry]: what [read] and [__bytes__] compute *)

(** Every byte has a decoded type, and the type has the byte as its int:
    [PartitionId(v)] finds a member whenever [v] is the value of one. *)
Lemma decoded_type_byte (t : byte) :
  exists p, decoded_type (byte.unsigned t) = Ok p
            /\ PartitionEntry.int p = byte.unsigned t.
Proof.
  destruct t; vm_compute; eexists; split; reflexivity.
Qed.

Lemma decoded_type_int (v : Z) :
  0 <= v < 256 ->
  exists p, decoded_type v = Ok p /\ PartitionEntry.int p = v.
Proof.
  intros Hv. rewrite <- (unsigned_of_Z_small v Hv). apply decoded_type_byte.
Qed.

(** Bit 7 of the attribute byte. *)
Lemma bootable_bit (a : byte) :
  negb (Z.land (byte.unsigned a) 0x80 =? 0) = Z.testbit (byte.unsigned a) 7.
Proof. destruct a; reflexivity. Qed.

Lemma PartitionEntry_read_sixteen
  (a s0 s1 s2 t e0 e1 e2 l0 l1 l2 l3 c0 c1 c2 c3 : byte) :
  PartitionEntry.read
    (Buffer [a; s0; s1; s2; t; e0; e1; e2; l0; l1; l2; l3; c0; c1; c2; c3]) =
  (p <- decoded_type (byte.unsigned t) ;;
   Ok (Some (PartitionEntry.mk
               (negb (Z.land (byte.unsigned a) 0x80 =? 0))
               p
               (LogicalBlockAddress.mk (le_combine [l0; l1; l2; l3]))
               (le_combine [c0; c1; c2; c3])
               (Some (decoded_chs s0 s1 s2))
               (Some (decoded_chs e0 e1 e2))))).
Proof. reflexivity. Qed.

Lemma length_sixteen (b : bytes) :
  length b = 16%nat ->
  exists a s0 s1 s2 t e0 e1 e2 l0 l1 l2 l3 c0 c1 c2 c3,
    b = [a; s0; s1; s2; t; e0; e1; e2; l0; l1; l2; l3; c0; c1; c2; c3].
Proof.
  intros H.
  do 16 (destruct b as [|? b]; [discriminate H|]).
  destruct b; [|discriminate H].
  repeat eexists.
Qed.

Lemma length_four (b : bytes) :
  length b = 4%nat -> exists b0 b1 b2 b3, b = [b0; b1; b2; b3].
Proof.
  intros H.
  do 4 (destruct b as [|? b]; [discriminate H|]).
  destruct b; [|discriminate H].
  repeat eexists.
Qed.

Lemma CHSAddress_to_bytes_decoded (b0 b1 b2 : byte) :
  CHSAddress.__bytes__ (decoded_chs b0 b1 b2) = Ok [b0; b1; b2].
Proof.
  rewrite CHSAddress_to_bytes_in_range
    by (apply (CHSAddress_parse_in_range b0 b1 b2); reflexivity).
  unfold decoded_chs.
  cbn [CHSAddress.cylinder CHSAddress.head CHSAddress.sector].
  rewrite repack_second_byte, repack_third_byte
    by apply unsigned_range_256.
  rewrite !byte.of_Z_unsigned. reflexivity.
Qed.

Lemma CHSAddress_parse_to_bytes (a : CHSAddress.t) :
  CHSAddress.in_range a ->
  exists b0 b1 b2,
    CHSAddress.__bytes__ a = Ok [b0; b1; b2] /\ decoded_chs b0 b1 b2 = a.
Proof.
  intros Ha. rewrite (CHSAddress_to_bytes_in_range a Ha).
  destruct a as [c h s]. destruct Ha as (Hc & Hh & Hs).
  cbn [CHSAddress.cylinder CHSAddress.head CHSAddress.sector] in *.
  do 3 eexists. split; [reflexivity|]. unfold decoded_chs.
  rewrite !unsigned_of_Z_small
    by (apply packed_second_byte_range || apply packed_third_byte_range
        || idtac; lia).
  rewrite unpack_sector, unpack_cylinder by lia. reflexivity.
Qed.

Lemma PartitionEntry_to_bytes_decoded
  (flag : bool) (p : PartitionEntry.int_or_PartitionId)
  (s0 s1 s2 t e0 e1 e2 l0 l1 l2 l3 c0 c1 c2 c3 : byte) :
  PartitionEntry.int p = byte.unsigned t ->
  PartitionEntry.__bytes__
    (PartitionEntry.mk flag p
       (LogicalBlockAddress.mk (le_combine [l0; l1; l2; l3]))
       (le_combine [c0; c1; c2; c3])
       (Some (decoded_chs s0 s1 s2)) (Some (decoded_chs e0 e1 e2))) =
  Ok [ if flag then Byte.x80 else Byte.x00; s0; s1; s2; t; e0; e1; e2;
       l0; l1; l2; l3; c0; c1; c2; c3 ].
Proof.
  intros Hp. unfold PartitionEntry.__bytes__, LogicalBlockAddress.__bytes__.
  cbn [PartitionEntry.bootable PartitionEntry.partition_type
       PartitionEntry.start_block_address PartitionEntry.sector_count
       PartitionEntry.start_chs PartitionEntry.end_chs
       LogicalBlockAddress.sector bytes_of_object].
  rewrite !CHSAddress_to_bytes_decoded, Hp.
  change [byte.unsigned t] with (map byte.unsigned [t]).
  rewrite bytes_of_ints_unsigned.
  rewrite !struct_pack_unpack_I by reflexivity.
  destruct flag; reflexivity.
Qed.

Lemma PartitionEntry_read_present (b : bytes) :
  length b = 16%nat -> exists e, PartitionEntry.read (Buffer b) = Ok (Some e).
Proof.
  intros Hb.
  destruct (length_sixteen b Hb)
    as (a & s0 & s1 & s2 & t & e0 & e1 & e2 & l0 & l1 & l2 & l3
        & c0 & c1 & c2 & c3 & ->).
  rewrite PartitionEntry_read_sixteen.
  destruct (decoded_type_byte t) as (p & -> & _).
  eexists. reflexivity.
Qed.

Lemma PartitionEntry_read_short (b : bytes) :
  (length b < 16)%nat -> PartitionEntry.read (Buffer b) = Ok None.
Proof.
  intros Hb. unfold PartitionEntry.read. cbn [bind].
  replace (length b <? PARTITION_ENTRY_SIZE)%nat with true
    by (symmetry; apply Nat.ltb_lt; exact Hb).
  reflexivity.
Qed.

(** Decoding a slice of at most 16 bytes never raises. *)
Lemma PartitionEntry_read_total (b : bytes) :
  (length b <= 16)%nat -> exists o, PartitionEntry.read (Buffer b) = Ok o.
Proof.
  intros Hb. destruct (Nat.eq_dec (length b) 16) as [E | E].
  - destruct (PartitionEntry_read_present b E) as [e He]. eauto.
  - exists None. apply PartitionEntry_read_short. lia.
Qed.

Lemma CHSAddress_eqb_refl (a : CHSAddress.t) : CHSAddress.eqb a a = true.
Proof. unfold CHSAddress.eqb. rewrite !Z.eqb_refl. reflexivity. Qed.

(** Encoding an entry that fits its slot, and decoding the 16 bytes. *)
Lemma PartitionEntry_encode_decode (e : PartitionEntry.t) :
  entry_fits e ->
  chs_in_range (PartitionEntry.start_chs e) ->
  chs_in_range (PartitionEntry.end_chs e) ->
  exists bs p,
    PartitionEntry.__bytes__ e = Ok bs
    /\ length bs = 16%nat
    /\ PartitionEntry.int p = PartitionEntry.int (PartitionEntry.partition_type e)
    /\ PartitionEntry.read (Buffer bs) =
       Ok (Some (PartitionEntry.mk
                   (PartitionEntry.bootable e) p
                   (PartitionEntry.start_block_address e)
                   (PartitionEntry.sector_count e)
                   (PartitionEntry.start_chs e)
                   (PartitionEntry.end_chs e))).
Proof.
  destruct e as [flag ty [st] cnt sc ec].
  unfold entry_fits, chs_in_range.
  cbn [PartitionEntry.bootable PartitionEntry.partition_type
       PartitionEntry.start_block_address PartitionEntry.sector_count
       PartitionEntry.start_chs PartitionEntry.end_chs
       LogicalBlockAddress.sector].
  intros (Hty & Hst & Hcnt) (sa & -> & Hsa) (ea & -> & Hea).
  destruct (CHSAddress_parse_to_bytes sa Hsa) as (s0 & s1 & s2 & Hs & Esa).
  destruct (CHSAddress_parse_to_bytes ea Hea) as (e0 & e1 & e2 & He & Eea).
  destruct (decoded_type_int _ Hty) as (p & Hp & Hint).
  exists ([if flag then Byte.x80 else Byte.x00] ++ [s0; s1; s2]
          ++ [byte.of_Z (PartitionEntry.int ty)] ++ [e0; e1; e2]
          ++ le_split 4 st ++ le_split 4 cnt), p.
  split; [|split; [reflexivity|split; [exact Hint|]]].
  - unfold PartitionEntry.__bytes__, LogicalBlockAddress.__bytes__.
    cbn [PartitionEntry.bootable PartitionEntry.partition_type
         PartitionEntry.start_block_address PartitionEntry.sector_count
         PartitionEntry.start_chs PartitionEntry.end_chs
         LogicalBlockAddress.sector bytes_of_object].
    rewrite Hs, He, !struct_pack_I_ok by assumption.
    rewrite (bytes_of_ints_ok [PartitionEntry.int ty])
      by (repeat constructor; lia).
    destruct flag; reflexivity.
  - pose proof (le_combine_split_four st Hst) as Est.
    pose proof (le_combine_split_four cnt Hcnt) as Ecnt.
    destruct (length_four (le_split 4 st) eq_refl)
      as (l0 & l1 & l2 & l3 & El).
    destruct (length_four (le_split 4 cnt) eq_refl)
      as (c0 & c1 & c2 & c3 & Ec).
    rewrite El in Est |- *. rewrite Ec in Ecnt |- *. cbn [app].
    rewrite PartitionEntry_read_sixteen.
    rewrite unsigned_of_Z_small, Hp by exact Hty.
    cbn [bind]. rewrite Esa, Eea, Est, Ecnt.
    destruct flag; reflexivity.
Qed.

(** ** [MasterBootRecord.read] *)

Lemma slice_length (b : bytes) (lo hi : nat) :
  length (slice b lo hi) = Nat.min (hi - lo) (length b - lo).
Proof. unfold slice. rewrite length_firstn, length_skipn. reflexivity. Qed.

Lemma struct_unpack_I_ok (b : bytes) :
  length b = 4%nat -> struct_unpack_I b = Ok (le_combine b).
Proof. intros H. unfold struct_unpack_I. rewrite H. reflexivity. Qed.

Lemma struct_unpack_I_raises (b : bytes) :
  length b <> 4%nat -> struct_unpack_I b = Raise struct_error.
Proof.
  intros H. unfold struct_unpack_I.
  destruct (Nat.eqb_spec (length b) 4); [contradiction | reflexivity].
Qed.

Lemma struct_unpack_H_ok (b : bytes) :
  length b = 2%nat -> struct_unpack_H b = Ok (le_combine b).
Proof. intros H. unfold struct_unpack_H. rewrite H. reflexivity. Qed.

Lemma struct_unpack_H_raises (b : bytes) :
  length b <> 2%nat -> struct_unpack_H b = Raise struct_error.
Proof.
  intros H. unfold struct_unpack_H.
  destruct (Nat.eqb_spec (length b) 2); [contradiction | reflexivity].
Qed.

(** The marker test passes exactly on the bytes 0x55, 0xAA. *)
Lemma valid_marker_bytes (b : bytes) :
  length b = 2%nat ->
  (le_combine b =? VALID_MARKER) = true <-> b = [Byte.x55; Byte.xaa].
Proof.
  intros Hb. rewrite Z.eqb_eq. split.
  - intros H. apply le_combine_inj; [exact Hb | exact H].
  - intros ->. reflexivity.
Qed.

Lemma read_slots_total (data : bytes) :
  exists ps, read_slots data = Ok ps /\ length ps = 4%nat.
Proof.
  unfold read_slots, PARTITION_OFFSETS. cbn [comprehension].
  repeat match goal with
  | |- context [PartitionEntry.read (Buffer (slice data ?lo ?hi))] =>
      let o := fresh "o" in let E := fresh "E" in
      destruct (PartitionEntry_read_total (slice data lo hi)) as [o E];
      [rewrite slice_length; unfold PARTITION_ENTRY_SIZE; lia|];
      rewrite E; cbn [bind]
  end.
  eexists. split; reflexivity.
Qed.

Lemma read_slots_present (data : bytes) :
  (512 <= length data)%nat ->
  exists p1 p2 p3 p4,
    read_slots data = Ok [Some p1; Some p2; Some p3; Some p4].
Proof.
  intros Hlen. unfold read_slots, PARTITION_OFFSETS. cbn [comprehension].
  repeat match goal with
  | |- context [PartitionEntry.read (Buffer (slice data ?lo ?hi))] =>
      let p := fresh "p" in let E := fresh "E" in
      destruct (PartitionEntry_read_present (slice data lo hi)) as [p E];
      [rewrite slice_length; unfold PARTITION_ENTRY_SIZE; lia|];
      rewrite E; cbn [bind]
  end.
  do 4 eexists. reflexivity.
Qed.

(** [read] on a buffer, step by step. *)
Lemma MasterBootRecord_read_buffer (data : bytes) (ignore : bool) :
  MasterBootRecord.read (Buffer data) ignore =
  (unique_id <- struct_unpack_I (slice data 0x1B8 0x1BC) ;;
   partitions <- read_slots data ;;
   valid_marker <- struct_unpack_H (slice data 0x1FE 0x200) ;;
   if ignore || (valid_marker =? VALID_MARKER)
   then Ok (Some (MasterBootRecord.mk (Some unique_id) partitions))
   else Ok None).
Proof. reflexivity. Qed.

Lemma MasterBootRecord_read_stream (pending : bytes) (ignore : bool) :
  MasterBootRecord.read (Stream pending) ignore =
  MasterBootRecord.read (Buffer (firstn 512 pending)) ignore.
Proof. reflexivity. Qed.

(** A buffer shorter than a sector: one of the two [struct.unpack] calls
    gets a slice that is too short. *)
Lemma MasterBootRecord_read_short (data : bytes) (ignore : bool) :
  (length data < 512)%nat ->
  MasterBootRecord.read (Buffer data) ignore = Raise struct_error.
Proof.
  intros Hlen. rewrite MasterBootRecord_read_buffer.
  destruct (Nat.eq_dec (length (slice data 0x1B8 0x1BC)) 4) as [E4 | E4].
  - rewrite (struct_unpack_I_ok _ E4). cbn [bind].
    destruct (read_slots_total data) as (ps & -> & _). cbn [bind].
    rewrite struct_unpack_H_raises; [reflexivity|].
    rewrite slice_length. lia.
  - rewrite (struct_unpack_I_raises _ E4). reflexivity.
Qed.

(** A full sector: [read] returns a record with four entries when the
    marker is there or is ignored, [None] otherwise. *)
Lemma MasterBootRecord_read_sector (data : bytes) (ignore : bool) :
  length data = 512%nat ->
  exists p1 p2 p3 p4,
    MasterBootRecord.read (Buffer data) ignore =
    Ok (if ignore || (le_combine (slice data 0x1FE 0x200) =? VALID_MARKER)
        then Some (MasterBootRecord.mk
                     (Some (le_combine (slice data 0x1B8 0x1BC)))
                     [Some p1; Some p2; Some p3; Some p4])
        else None).
Proof.
  intros Hlen. rewrite MasterBootRecord_read_buffer.
  rewrite struct_unpack_I_ok by (rewrite slice_length; lia).
  destruct (read_slots_present data) as (p1 & p2 & p3 & p4 & ->); [lia|].
  rewrite struct_unpack_H_ok by (rewrite slice_length; lia).
  exists p1, p2, p3, p4. cbn [bind].
  destruct (ignore || _); reflexivity.
Qed.

(** An entry decoded from 16 bytes fits its slot. *)
Lemma PartitionEntry_read_present_fits (b : bytes) :
  length b = 16%nat ->
  exists e, PartitionEntry.read (Buffer b) = Ok (Some e)
            /\ slot_fits (Some e).
Proof.
  intros Hb.
  destruct (length_sixteen b Hb)
    as (a & s0 & s1 & s2 & t & e0 & e1 & e2 & l0 & l1 & l2 & l3
        & c0 & c1 & c2 & c3 & ->).
  rewrite PartitionEntry_read_sixteen.
  destruct (decoded_type_byte t) as (p & -> & Hp). cbn [bind].
  eexists. split; [reflexivity|].
  eexists. split; [reflexivity|].
  unfold entry_fits, chs_in_range.
  cbn [PartitionEntry.bootable PartitionEntry.partition_type
       PartitionEntry.start_block_address PartitionEntry.sector_count
       PartitionEntry.start_chs PartitionEntry.end_chs
       LogicalBlockAddress.sector].
  pose proof (unsigned_range_256 t) as Ht.
  split; [split; [rewrite Hp; exact Ht|];
          split; apply le_combine_four_range; reflexivity|].
  split; eexists; (split; [reflexivity|]).
  - apply (CHSAddress_parse_in_range s0 s1 s2). reflexivity.
  - apply (CHSAddress_parse_in_range e0 e1 e2). reflexivity.
Qed.

(** A full sector: what [read] returns, with the record spelled out. *)
Lemma MasterBootRecord_read_sector_record (data : bytes) (ignore : bool) :
  length data = 512%nat ->
  exists r,
    record_of_sector data r
    /\ MasterBootRecord.read (Buffer data) ignore =
       Ok (if ignore || (le_combine (slice data 0x1FE 0x200) =? VALID_MARKER)
           then Some r else None).
Proof.
  intros Hlen. rewrite MasterBootRecord_read_buffer.
  rewrite struct_unpack_I_ok by (rewrite slice_length; lia).
  rewrite struct_unpack_H_ok by (rewrite slice_length; lia).
  unfold read_slots, PARTITION_OFFSETS, PARTITION_ENTRY_SIZE.
  cbn [comprehension bind].
  change (0x1BE + 16)%nat with 0x1CE%nat.
  change (0x1CE + 16)%nat with 0x1DE%nat.
  change (0x1DE + 16)%nat with 0x1EE%nat.
  change (0x1EE + 16)%nat with 0x1FE%nat.
  destruct (PartitionEntry_read_present_fits (slice data 0x1BE 0x1CE))
    as (p1 & E1 & F1); [rewrite slice_length; lia|].
  destruct (PartitionEntry_read_present_fits (slice data 0x1CE 0x1DE))
    as (p2 & E2 & F2); [rewrite slice_length; lia|].
  destruct (PartitionEntry_read_present_fits (slice data 0x1DE 0x1EE))
    as (p3 & E3 & F3); [rewrite slice_length; lia|].
  destruct (PartitionEntry_read_present_fits (slice data 0x1EE 0x1FE))
    as (p4 & E4 & F4); [rewrite slice_length; lia|].
  exists (MasterBootRecord.mk
            (Some (le_combine (slice data 0x1B8 0x1BC)))
            [Some p1; Some p2; Some p3; Some p4]).
  split.
  - exists p1, p2, p3, p4. repeat split; assumption.
  - rewrite E1, E2, E3, E4. cbn [bind].
    destruct (ignore || _); reflexivity.
Qed.

(** ** [MasterBootRecord.__bytes__] *)

Ltac explicit_bytes b H :=
  repeat (destruct b as [|? b]; [discriminate H|]);
  destruct b; [clear H | discriminate H].

Lemma write_partitions_four (p1 p2 p3 p4 : PartitionEntry.t)
  (bs1 bs2 bs3 bs4 : bytes) (wr : BytesIO) :
  PartitionEntry.__bytes__ p1 = Ok bs1 ->
  PartitionEntry.__bytes__ p2 = Ok bs2 ->
  PartitionEntry.__bytes__ p3 = Ok bs3 ->
  PartitionEntry.__bytes__ p4 = Ok bs4 ->
  MasterBootRecord.write_partitions 0 [Some p1; Some p2; Some p3; Some p4] wr =
  Ok (write bs4 (seek 0x1EE (write bs3 (seek 0x1DE
       (write bs2 (seek 0x1CE (write bs1 (seek 0x1BE wr)))))))).
Proof.
  intros H1 H2 H3 H4.
  cbn [MasterBootRecord.write_partitions bytes_of_object].
  rewrite H1, H2, H3, H4. reflexivity.
Qed.

Lemma MasterBootRecord_to_bytes_image (uid : option Z)
  (p1 p2 p3 p4 : PartitionEntry.t) (bs1 bs2 bs3 bs4 : bytes) :
  0 <= or_int uid 0 < 2 ^ 32 ->
  PartitionEntry.__bytes__ p1 = Ok bs1 -> length bs1 = 16%nat ->
  PartitionEntry.__bytes__ p2 = Ok bs2 -> length bs2 = 16%nat ->
  PartitionEntry.__bytes__ p3 = Ok bs3 -> length bs3 = 16%nat ->
  PartitionEntry.__bytes__ p4 = Ok bs4 -> length bs4 = 16%nat ->
  MasterBootRecord.__bytes__
    (MasterBootRecord.mk uid [Some p1; Some p2; Some p3; Some p4]) =
  Ok (sector_image (le_split 4 (or_int uid 0)) bs1 bs2 bs3 bs4).
Proof.
  intros Hid H1 L1 H2 L2 H3 L3 H4 L4. unfold MasterBootRecord.__bytes__.
  cbn [MasterBootRecord.unique_id MasterBootRecord.partitions].
  rewrite (struct_pack_I_ok _ Hid). cbn [bind].
  rewrite (write_partitions_four p1 p2 p3 p4 bs1 bs2 bs3 bs4) by assumption.
  cbn [bind].
  change (struct_pack_H VALID_MARKER) with (Ok [Byte.x55; Byte.xaa]).
  cbn [bind].
  destruct (length_four (le_split 4 (or_int uid 0)) eq_refl)
    as (i0 & i1 & i2 & i3 & ->).
  explicit_bytes bs1 L1. explicit_bytes bs2 L2.
  explicit_bytes bs3 L3. explicit_bytes bs4 L4.
  reflexivity.
Qed.

Lemma sector_image_length (id bs1 bs2 bs3 bs4 : bytes) :
  length id = 4%nat -> length bs1 = 16%nat -> length bs2 = 16%nat ->
  length bs3 = 16%nat -> length bs4 = 16%nat ->
  length (sector_image id bs1 bs2 bs3 bs4) = 512%nat.
Proof.
  intros H0 H1 H2 H3 H4. unfold sector_image.
  rewrite !length_app, repeat_length, H0, H1, H2, H3, H4. reflexivity.
Qed.

Lemma MasterBootRecord_read_image (id bs1 bs2 bs3 bs4 : bytes)
  (ignore : bool) :
  length id = 4%nat -> length bs1 = 16%nat -> length bs2 = 16%nat ->
  length bs3 = 16%nat -> length bs4 = 16%nat ->
  MasterBootRecord.read (Buffer (sector_image id bs1 bs2 bs3 bs4)) ignore =
  (e1 <- PartitionEntry.read (Buffer bs1) ;;
   e2 <- PartitionEntry.read (Buffer bs2) ;;
   e3 <- PartitionEntry.read (Buffer bs3) ;;
   e4 <- PartitionEntry.read (Buffer bs4) ;;
   Ok (Some (MasterBootRecord.mk (Some (le_combine id)) [e1; e2; e3; e4]))).
Proof.
  intros L0 L1 L2 L3 L4. rewrite MasterBootRecord_read_buffer.
  assert (S0 : slice (sector_image id bs1 bs2 bs3 bs4) 0x1B8 0x1BC = id).
  { explicit_bytes id L0. reflexivity. }
  assert (S1 : slice (sector_image id bs1 bs2 bs3 bs4) 0x1BE 0x1CE = bs1).
  { explicit_bytes id L0. explicit_bytes bs1 L1. reflexivity. }
  assert (S2 : slice (sector_image id bs1 bs2 bs3 bs4) 0x1CE 0x1DE = bs2).
  { explicit_bytes id L0. explicit_bytes bs1 L1. explicit_bytes bs2 L2.
    reflexivity. }
  assert (S3 : slice (sector_image id bs1 bs2 bs3 bs4) 0x1DE 0x1EE = bs3).
  { explicit_bytes id L0. explicit_bytes bs1 L1. explicit_bytes bs2 L2.
    explicit_bytes bs3 L3. reflexivity. }
  assert (S4 : slice (sector_image id bs1 bs2 bs3 bs4) 0x1EE 0x1FE = bs4).
  { explicit_bytes id L0. explicit_bytes bs1 L1. explicit_bytes bs2 L2.
    explicit_bytes bs3 L3. explicit_bytes bs4 L4. reflexivity. }
  assert (S5 : slice (sector_image id bs1 bs2 bs3 bs4) 0x1FE 0x200
               = [Byte.x55; Byte.xaa]).
  { explicit_bytes id L0. explicit_bytes bs1 L1. explicit_bytes bs2 L2.
    explicit_bytes bs3 L3. explicit_bytes bs4 L4. reflexivity. }
  unfold read_slots, PARTITION_OFFSETS, PARTITION_ENTRY_SIZE.
  cbn [comprehension Nat.add].
  rewrite S0, S5.
  change (0x1BE + 16)%nat with 0x1CE%nat.
  change (0x1CE + 16)%nat with 0x1DE%nat.
  change (0x1DE + 16)%nat with 0x1EE%nat.
  change (0x1EE + 16)%nat with 0x1FE%nat.
  rewrite S1, S2, S3, S4.
  rewrite (struct_unpack_I_ok _ L0). cbn [bind].
  destruct (PartitionEntry.read (Buffer bs1)); [|reflexivity].
  destruct (PartitionEntry.read (Buffer bs2)); [|reflexivity].
  destruct (PartitionEntry.read (Buffer bs3)); [|reflexivity].
  destruct (PartitionEntry.read (Buffer bs4)); [|reflexivity].
  cbn [bind]. destruct ignore; reflexivity.
Qed.

(** The loop of [__bytes__] stops with an exception at the latest on the
    first absent slot. *)
Lemma write_partitions_none (ps : list (option PartitionEntry.t)) :
  In None ps ->
  forall i wr, raises (MasterBootRecord.write_partitions i ps wr).
Proof.
  induction ps as [|slot rest IH]; intros Hin i wr; [destruct Hin|].
  cbn [MasterBootRecord.write_partitions].
  destruct (list_getitem PARTITION_OFFSETS i) as [off | e];
    [cbn [bind] | exists e; reflexivity].
  destruct slot as [p|]; [|exists TypeError; reflexivity].
  cbn [bytes_of_object].
  destruct (PartitionEntry.__bytes__ p) as [bs | e];
    [cbn [bind] | exists e; reflexivity].
  apply IH. destruct Hin as [H | H]; [discriminate H | exact H].
Qed.

(** ** Equality of records *)

Lemma option_chs_eqb_refl (o : option CHSAddress.t) :
  option_eqb CHSAddress.eqb o o = true.
Proof. destruct o as [a|]; [apply CHSAddress_eqb_refl | reflexivity]. Qed.

Lemma PartitionEntry_eqb_decoded (e : PartitionEntry.t)
  (p : PartitionEntry.int_or_PartitionId) :
  PartitionEntry.int p = PartitionEntry.int (PartitionEntry.partition_type e) ->
  PartitionEntry.eqb
    (PartitionEntry.mk (PartitionEntry.bootable e) p
       (PartitionEntry.start_block_address e) (PartitionEntry.sector_count e)
       (PartitionEntry.start_chs e) (PartitionEntry.end_chs e)) e = true.
Proof.
  intros Hp.
  unfold PartitionEntry.eqb, PartitionEntry.partition_type_eqb,
    LogicalBlockAddress.eqb.
  cbn [PartitionEntry.bootable PartitionEntry.partition_type
       PartitionEntry.start_block_address PartitionEntry.sector_count
       PartitionEntry.start_chs PartitionEntry.end_chs].
  rewrite Hp, !Z.eqb_refl, !option_chs_eqb_refl, Bool.eqb_reflx.
  reflexivity.
Qed.

(** Encoding a fitting slot and decoding its 16 bytes gives an equal slot. *)
Lemma slot_encode_decode (o : option PartitionEntry.t) :
  slot_fits o ->
  exists e bs o',
    o = Some e
    /\ PartitionEntry.__bytes__ e = Ok bs
    /\ length bs = 16%nat
    /\ PartitionEntry.read (Buffer bs) = Ok o'
    /\ option_eqb PartitionEntry.eqb o' o = true.
Proof.
  intros (e & -> & He & Hs & Hc).
  destruct (PartitionEntry_encode_decode e He Hs Hc)
    as (bs & p & Hbs & Hlen & Hp & Hread).
  exists e, bs. eexists. repeat split; try eassumption.
  cbn [option_eqb]. apply PartitionEntry_eqb_decoded. exact Hp.
Qed.

(** * Properties of the specification *)

(** C5. For every CHS triple with cylinder in [0,1023], head in [0,255]
    and sector in [0,63], [__bytes__] returns three bytes, and
    [CHSAddress.parse] of these bytes is the original address. *)
Theorem chs_encode_decode (a : CHSAddress.t) :
  CHSAddress.in_range a ->
  exists bs,
    CHSAddress.__bytes__ a = Ok bs
    /\ length bs = 3%nat
    /\ CHSAddress.parse bs = Ok a.
Proof.
  intros Ha.
  destruct (CHSAddress_parse_to_bytes a Ha) as (b0 & b1 & b2 & Hbs & Hdec).
  exists [b0; b1; b2]. split; [exact Hbs|]. split; [reflexivity|].
  rewrite CHSAddress_parse_three. fold (decoded_chs b0 b1 b2).
  rewrite Hdec. reflexivity.
Qed.

Lemma chs_encode_decode_witness :
  exists bs,
    CHSAddress.__bytes__ (CHSAddress.mk 1023 254 63) = Ok bs
    /\ length bs = 3%nat
    /\ CHSAddress.parse bs = Ok (CHSAddress.mk 1023 254 63).
Proof.
  apply (chs_encode_decode (CHSAddress.mk 1023 254 63)).
  unfold CHSAddress.in_range. simpl. lia.
Defined.

(** C9. For every three bytes, [CHSAddress.parse] returns an address
    that is in range, and [__bytes__] of that address returns the same
    three bytes. *)
Theorem chs_decode_encode (b0 b1 b2 : byte) :
  exists a,
    CHSAddress.parse [b0; b1; b2] = Ok a
    /\ CHSAddress.in_range a
    /\ CHSAddress.__bytes__ a = Ok [b0; b1; b2].
Proof.
  exists (decoded_chs b0 b1 b2). split; [apply CHSAddress_parse_three|].
  split.
  - apply (CHSAddress_parse_in_range b0 b1 b2). apply CHSAddress_parse_three.
  - apply CHSAddress_to_bytes_decoded.
Qed.

(** C2. [__bytes__] of a CHS address raises exactly when a component is
    out of range: for components that are not negative, exactly when
    cylinder > 1023, head > 255 or sector > 63 (a negative component
    fails an assertion). CHSAddress(1024, 0, 0) passes the assertions and
    raises ValueError when the bytes are built; CHSAddress(0, 256, 0) and
    CHSAddress(0, 0, 64) raise AssertionError. *)
Theorem chs_encode_raises_iff_out_of_range :
  (forall a, raises (CHSAddress.__bytes__ a) <-> ~ CHSAddress.in_range a)
  /\ (forall c h s, 0 <= c -> 0 <= h -> 0 <= s ->
        (raises (CHSAddress.__bytes__ (CHSAddress.mk c h s))
         <-> (c > 1023 \/ h > 255 \/ s > 63)))
  /\ CHSAddress.__bytes__ (CHSAddress.mk 1024 0 0) = Raise ValueError
  /\ CHSAddress.__bytes__ (CHSAddress.mk 0 256 0) = Raise AssertionError
  /\ CHSAddress.__bytes__ (CHSAddress.mk 0 0 64) = Raise AssertionError.
Proof.
  assert (Hiff : forall a,
             raises (CHSAddress.__bytes__ a) <-> ~ CHSAddress.in_range a).
  { intros a. split.
    - intros [e He] Ha.
      rewrite (CHSAddress_to_bytes_in_range a Ha) in He. discriminate He.
    - apply CHSAddress_to_bytes_out_of_range. }
  split; [exact Hiff|]. split; [|repeat split; reflexivity].
  intros c h s Hc Hh Hs. rewrite Hiff. unfold CHSAddress.in_range.
  cbn [CHSAddress.cylinder CHSAddress.head CHSAddress.sector]. lia.
Qed.

Lemma chs_encode_raises_iff_out_of_range_witness :
  raises (CHSAddress.__bytes__ (CHSAddress.mk 2000 3 4)).
Proof.
  apply (proj1 (proj2 chs_encode_raises_iff_out_of_range) 2000 3 4);
    try lia.
Defined.

(** C7. For every PartitionEntry whose fields fit the slot (one-byte
    type, unsigned 32-bit start and sector count) and whose start_chs
    and end_chs are present and in range, [__bytes__] returns 16 bytes
    and [PartitionEntry.read] of them returns an entry equal ([==]) to
    the original: same bootable flag, same partition type value, same
    start address, sector count and CHS fields. *)
Theorem partition_entry_encode_decode (e : PartitionEntry.t) :
  entry_fits e ->
  chs_in_range (PartitionEntry.start_chs e) ->
  chs_in_range (PartitionEntry.end_chs e) ->
  exists bs e',
    PartitionEntry.__bytes__ e = Ok bs
    /\ length bs = 16%nat
    /\ PartitionEntry.read (Buffer bs) = Ok (Some e')
    /\ PartitionEntry.eqb e' e = true
    /\ PartitionEntry.bootable e' = PartitionEntry.bootable e
    /\ PartitionEntry.int (PartitionEntry.partition_type e')
       = PartitionEntry.int (PartitionEntry.partition_type e)
    /\ PartitionEntry.start_block_address e'
       = PartitionEntry.start_block_address e
    /\ PartitionEntry.sector_count e' = PartitionEntry.sector_count e
    /\ PartitionEntry.start_chs e' = PartitionEntry.start_chs e
    /\ PartitionEntry.end_chs e' = PartitionEntry.end_chs e.
Proof.
  intros He Hs Hc.
  destruct (PartitionEntry_encode_decode e He Hs Hc)
    as (bs & p & Hbs & Hlen & Hp & Hread).
  exists bs. eexists. split; [exact Hbs|]. split; [exact Hlen|].
  split; [exact Hread|]. split; [apply PartitionEntry_eqb_decoded, Hp|].
  cbn [PartitionEntry.bootable PartitionEntry.partition_type
       PartitionEntry.start_block_address PartitionEntry.sector_count
       PartitionEntry.start_chs PartitionEntry.end_chs].
  repeat split. exact Hp.
Qed.

Lemma partition_entry_encode_decode_witness :
  exists bs e',
    PartitionEntry.__bytes__
      (PartitionEntry.mk true (PartitionEntry.Int 0x83)
         (LogicalBlockAddress.mk 2048) 1000000
         (Some (CHSAddress.mk 0 32 33)) (Some (CHSAddress.mk 1023 254 63)))
    = Ok bs
    /\ length bs = 16%nat
    /\ PartitionEntry.read (Buffer bs) = Ok (Some e')
    /\ PartitionEntry.eqb e'
         (PartitionEntry.mk true (PartitionEntry.Int 0x83)
            (LogicalBlockAddress.mk 2048) 1000000
            (Some (CHSAddress.mk 0 32 33)) (Some (CHSAddress.mk 1023 254 63)))
       = true.
Proof.
  destruct (partition_entry_encode_decode
              (PartitionEntry.mk true (PartitionEntry.Int 0x83)
                 (LogicalBlockAddress.mk 2048) 1000000
                 (Some (CHSAddress.mk 0 32 33))
                 (Some (CHSAddress.mk 1023 254 63))))
    as (bs & e' & H1 & H2 & H3 & H4 & _).
  - unfold entry_fits. simpl. lia.
  - eexists. split; [reflexivity|]. unfold CHSAddress.in_range. simpl. lia.
  - eexists. split; [reflexivity|]. unfold CHSAddress.in_range. simpl. lia.
  - exists bs, e'. repeat split; assumption.
Defined.

(** The ranges of [entry_fits] are those of the slot: a sector count of
    2^32 does not pack in four bytes, and a type of 256 is not a byte. *)
Example partition_entry_encode_outside_slot :
  PartitionEntry.__bytes__
    (PartitionEntry.mk false (PartitionEntry.Int 0) (LogicalBlockAddress.mk 0)
       (2 ^ 32) (Some (CHSAddress.mk 0 0 0)) (Some (CHSAddress.mk 0 0 0)))
  = Raise struct_error
  /\ PartitionEntry.__bytes__
       (PartitionEntry.mk false (PartitionEntry.Int 256)
          (LogicalBlockAddress.mk 0) 0
          (Some (CHSAddress.mk 0 0 0)) (Some (CHSAddress.mk 0 0 0)))
     = Raise ValueError.
Proof. split; vm_compute; reflexivity. Qed.

(** C10. For every buffer of 16 bytes, [PartitionEntry.read] returns an
    entry, and [__bytes__] of that entry returns the bytes 1 to 15 of the
    buffer unchanged after a first byte that is 0x80 when bit 7 of the
    buffer's first byte is set and 0x00 otherwise. *)
Theorem partition_entry_decode_encode (b : bytes) :
  length b = 16%nat ->
  exists e,
    PartitionEntry.read (Buffer b) = Ok (Some e)
    /\ PartitionEntry.__bytes__ e =
       Ok ((if Z.testbit (byte.unsigned (hd Byte.x00 b)) 7
            then Byte.x80 else Byte.x00) :: tl b).
Proof.
  intros Hb.
  destruct (length_sixteen b Hb)
    as (a & s0 & s1 & s2 & t & e0 & e1 & e2 & l0 & l1 & l2 & l3
        & c0 & c1 & c2 & c3 & ->).
  rewrite PartitionEntry_read_sixteen.
  destruct (decoded_type_byte t) as (p & -> & Hp). cbn [bind hd tl].
  eexists. split; [reflexivity|].
  rewrite (PartitionEntry_to_bytes_decoded _ p s0 s1 s2 t) by exact Hp.
  rewrite bootable_bit. reflexivity.
Qed.

Lemma partition_entry_decode_encode_witness :
  exists e,
    PartitionEntry.read (Buffer (repeat Byte.xff 16)) = Ok (Some e)
    /\ PartitionEntry.__bytes__ e = Ok (Byte.x80 :: repeat Byte.xff 15).
Proof.
  exact (partition_entry_decode_encode (repeat Byte.xff 16) eq_refl).
Defined.

(** C8. Decoding 16 bytes whose byte at offset 4 is 0x83 gives an entry
    whose partition type is the member LINUX; decoding 16 bytes whose
    byte at offset 4 is 0x99, which no member has, gives an entry whose
    partition type is the int 0x99, and encoding that entry writes 0x99
    at offset 4. *)
Theorem partition_type_mapping (b : bytes) :
  length b = 16%nat ->
  (nth_error b 4 = Some Byte.x83 ->
   exists e,
     PartitionEntry.read (Buffer b) = Ok (Some e)
     /\ PartitionEntry.partition_type e = PartitionEntry.Id PartitionId.LINUX)
  /\ (nth_error b 4 = Some Byte.x99 ->
      exists e bs,
        PartitionEntry.read (Buffer b) = Ok (Some e)
        /\ PartitionEntry.partition_type e = PartitionEntry.Int 0x99
        /\ PartitionEntry.__bytes__ e = Ok bs
        /\ nth_error bs 4 = Some Byte.x99).
Proof.
  intros Hb.
  destruct (length_sixteen b Hb)
    as (a & s0 & s1 & s2 & t & e0 & e1 & e2 & l0 & l1 & l2 & l3
        & c0 & c1 & c2 & c3 & ->).
  cbn [nth_error]. split; intros Ht.
  - assert (t = Byte.x83) as -> by congruence.
    rewrite PartitionEntry_read_sixteen.
    change (decoded_type (byte.unsigned Byte.x83))
      with (Ok (PartitionEntry.Id PartitionId.LINUX)).
    cbn [bind]. eexists. split; reflexivity.
  - assert (t = Byte.x99) as -> by congruence.
    rewrite PartitionEntry_read_sixteen.
    change (decoded_type (byte.unsigned Byte.x99))
      with (Ok (PartitionEntry.Int 0x99)).
    cbn [bind]. do 2 eexists.
    split; [reflexivity|]. split; [reflexivity|].
    split; [apply (PartitionEntry_to_bytes_decoded _ _ s0 s1 s2 Byte.x99);
            reflexivity|].
    reflexivity.
Qed.

Lemma partition_type_mapping_witness :
  (exists e,
     PartitionEntry.read
       (Buffer (repeat Byte.x00 4 ++ Byte.x83 :: repeat Byte.x00 11))
     = Ok (Some e)
     /\ PartitionEntry.partition_type e = PartitionEntry.Id PartitionId.LINUX)
  /\ (exists e bs,
        PartitionEntry.read
          (Buffer (repeat Byte.x00 4 ++ Byte.x99 :: repeat Byte.x00 11))
        = Ok (Some e)
        /\ PartitionEntry.partition_type e = PartitionEntry.Int 0x99
        /\ PartitionEntry.__bytes__ e = Ok bs
        /\ nth_error bs 4 = Some Byte.x99).
Proof.
  split.
  - exact (proj1 (partition_type_mapping
                    (repeat Byte.x00 4 ++ Byte.x83 :: repeat Byte.x00 11)
                    eq_refl) eq_refl).
  - exact (proj2 (partition_type_mapping
                    (repeat Byte.x00 4 ++ Byte.x99 :: repeat Byte.x00 11)
                    eq_refl) eq_refl).
Defined.

(** C6. For every buffer of 512 bytes: when the two bytes at offset
    0x1FE are not 0x55, 0xAA, [MasterBootRecord.read] returns [None]
    (and does not raise) with the marker checked, and with
    [ignore_valid_marker] it returns the record of the sector: the
    signature read at 0x1B8 and the four entries decoded from the 16-byte
    slots at 0x1BE, 0x1CE, 0x1DE and 0x1EE. When the two bytes are
    0x55, 0xAA, it returns this record with the marker checked. *)
Theorem mbr_signature_gate (data : bytes) :
  length data = 512%nat ->
  (slice data 0x1FE 0x200 <> [Byte.x55; Byte.xaa] ->
   MasterBootRecord.read (Buffer data) false = Ok None
   /\ exists r, MasterBootRecord.read (Buffer data) true = Ok (Some r)
                /\ record_of_sector data r)
  /\ (slice data 0x1FE 0x200 = [Byte.x55; Byte.xaa] ->
      exists r, MasterBootRecord.read (Buffer data) false = Ok (Some r)
                /\ record_of_sector data r).
Proof.
  intros Hlen.
  assert (Hm : length (slice data 0x1FE 0x200) = 2%nat)
    by (rewrite slice_length; lia).
  destruct (MasterBootRecord_read_sector_record data false Hlen)
    as (r & Hr & Hchecked).
  destruct (MasterBootRecord_read_sector_record data true Hlen)
    as (r' & Hr' & Hignored).
  cbn [orb] in Hchecked, Hignored.
  split; intros Hmarker.
  - split.
    + rewrite Hchecked.
      destruct (le_combine (slice data 0x1FE 0x200) =? VALID_MARKER) eqn:E;
        [|reflexivity].
      apply (valid_marker_bytes _ Hm) in E. contradiction.
    + exists r'. split; [exact Hignored | exact Hr'].
  - rewrite Hchecked.
    rewrite (proj2 (valid_marker_bytes _ Hm) Hmarker).
    exists r. split; [reflexivity | exact Hr].
Qed.

Lemma mbr_signature_gate_witness :
  (MasterBootRecord.read (Buffer (repeat Byte.x00 512)) false = Ok None
   /\ exists r,
        MasterBootRecord.read (Buffer (repeat Byte.x00 512)) true = Ok (Some r)
        /\ record_of_sector (repeat Byte.x00 512) r)
  /\ exists r,
       MasterBootRecord.read
         (Buffer (repeat Byte.x00 510 ++ [Byte.x55; Byte.xaa])) false
       = Ok (Some r)
       /\ record_of_sector (repeat Byte.x00 510 ++ [Byte.x55; Byte.xaa]) r.
Proof.
  split.
  - apply (proj1 (mbr_signature_gate (repeat Byte.x00 512) eq_refl)).
    vm_compute. discriminate.
  - apply (proj2 (mbr_signature_gate
                    (repeat Byte.x00 510 ++ [Byte.x55; Byte.xaa]) eq_refl)).
    vm_compute. reflexivity.
Defined.

(** C4. [MasterBootRecord.read] has no length check: on every buffer
    shorter than 512 bytes, 511 bytes included, and on every stream that
    holds fewer than 512 bytes, it raises [struct.error], the exception
    of [struct.unpack], instead of returning [None] or raising the
    ValueError it has for a wrong argument. *)
Theorem mbr_read_short_raises_struct_error (data : bytes) (ignore : bool) :
  (length data < 512)%nat ->
  MasterBootRecord.read (Buffer data) ignore = Raise struct_error
  /\ MasterBootRecord.read (Stream data) ignore = Raise struct_error.
Proof.
  intros Hlen. split.
  - apply MasterBootRecord_read_short. exact Hlen.
  - rewrite MasterBootRecord_read_stream.
    apply MasterBootRecord_read_short. rewrite length_firstn. lia.
Qed.

Lemma mbr_read_short_raises_struct_error_witness :
  MasterBootRecord.read (Buffer (repeat Byte.x00 511)) false
  = Raise struct_error
  /\ MasterBootRecord.read (Stream (repeat Byte.x00 511)) false
     = Raise struct_error.
Proof.
  apply (mbr_read_short_raises_struct_error (repeat Byte.x00 511) false).
  rewrite repeat_length. lia.
Defined.

(** C3. [MasterBootRecord.__bytes__] calls [bytes(partition)] on every
    slot without a test for [None]: on every record with an absent slot
    it raises and returns no bytes (a TypeError for four absent slots),
    while the record with the all-zero entry in the four slots is
    encoded as 510 zero bytes and the marker. *)
Theorem mbr_encode_absent_slot_raises :
  (forall m, In None (MasterBootRecord.partitions m) ->
             raises (MasterBootRecord.__bytes__ m))
  /\ MasterBootRecord.__bytes__
       (MasterBootRecord.mk None [None; None; None; None]) = Raise TypeError
  /\ MasterBootRecord.__bytes__
       (MasterBootRecord.mk None
          [Some zero_entry; Some zero_entry; Some zero_entry; Some zero_entry])
     = Ok (repeat Byte.x00 510 ++ [Byte.x55; Byte.xaa]).
Proof.
  split; [|split; vm_compute; reflexivity].
  intros m Hin. unfold MasterBootRecord.__bytes__.
  destruct (struct_pack_I (or_int (MasterBootRecord.unique_id m) 0))
    as [id | e]; [cbn [bind] | exists e; reflexivity].
  destruct (write_partitions_none _ Hin 0
              (write id (seek UNIQUE_ID_OFFSET
                           (BytesIO_new (repeat Byte.x00 512)))))
    as [e He].
  exists e. rewrite He. reflexivity.
Qed.

Lemma mbr_encode_absent_slot_raises_witness :
  raises (MasterBootRecord.__bytes__
            (MasterBootRecord.mk (Some 7)
               [Some zero_entry; None; Some zero_entry; Some zero_entry])).
Proof.
  apply (proj1 mbr_encode_absent_slot_raises
           (MasterBootRecord.mk (Some 7)
              [Some zero_entry; None; Some zero_entry; Some zero_entry])).
  simpl. right. left. reflexivity.
Defined.

(** C1, as stated, fails: a record without disk signature is encoded
    with the signature 0, and decoding gives the signature 0, which is
    not equal to [None]. *)
Lemma mbr_roundtrip_absent_signature_counterexample :
  ~ mbr_roundtrips
      (MasterBootRecord.mk None
         [Some zero_entry; Some zero_entry; Some zero_entry; Some zero_entry]).
Proof.
  intros (bs & r & Hbs & Hr & Heq).
  vm_compute in Hbs. injection Hbs as <-.
  vm_compute in Hr. injection Hr as <-.
  vm_compute in Heq. discriminate Heq.
Qed.

(** What the code does there: the sector is written with the
    signature 0 and decodes to a record with the signature 0. *)
Example mbr_decode_absent_signature :
  exists bs r,
    MasterBootRecord.__bytes__
      (MasterBootRecord.mk None
         [Some zero_entry; Some zero_entry; Some zero_entry; Some zero_entry])
    = Ok bs
    /\ bs = repeat Byte.x00 510 ++ [Byte.x55; Byte.xaa]
    /\ MasterBootRecord.read (Buffer bs) false = Ok (Some r)
    /\ MasterBootRecord.unique_id r = Some 0.
Proof. do 2 eexists. repeat split; vm_compute; reflexivity. Qed.

Lemma or_int_fits (uid : option Z) :
  signature_fits uid ->
  0 <= or_int uid 0 < 2 ^ 32
  /\ or_int uid 0 = match uid with Some u => u | None => 0 end.
Proof.
  destruct uid as [u|]; cbn [signature_fits or_int].
  - intros Hu. destruct (Z.eqb_spec u 0) as [-> | _]; split; lia.
  - intros _. split; [|reflexivity]. split; [lia | reflexivity].
Qed.

(** C1, amended. For every record whose four slots hold entries that fit
    their 16 bytes, CHS fields present and in range, and whose disk
    signature is absent or an unsigned 32-bit integer,
    [__bytes__] returns 512 bytes and [read] of them, marker checked,
    returns a record whose four slots are equal ([==]) to the original
    ones and whose disk signature is the original one when there is one
    and 0 when there is none; with a signature the two records are
    equal. *)
Theorem mbr_encode_decode (uid : option Z)
  (s1 s2 s3 s4 : option PartitionEntry.t) :
  signature_fits uid ->
  slot_fits s1 -> slot_fits s2 -> slot_fits s3 -> slot_fits s4 ->
  exists bs r,
    MasterBootRecord.__bytes__ (MasterBootRecord.mk uid [s1; s2; s3; s4])
    = Ok bs
    /\ length bs = 512%nat
    /\ MasterBootRecord.read (Buffer bs) false = Ok (Some r)
    /\ MasterBootRecord.unique_id r
       = Some (match uid with Some u => u | None => 0 end)
    /\ list_eqb (option_eqb PartitionEntry.eqb)
         (MasterBootRecord.partitions r) [s1; s2; s3; s4] = true
    /\ (uid <> None ->
        MasterBootRecord.eqb r (MasterBootRecord.mk uid [s1; s2; s3; s4])
        = true).
Proof.
  intros Hsig H1 H2 H3 H4.
  destruct (or_int_fits uid Hsig) as [Hid Eid].
  destruct (slot_encode_decode s1 H1) as (e1 & bs1 & o1 & -> & B1 & L1 & R1 & Q1).
  destruct (slot_encode_decode s2 H2) as (e2 & bs2 & o2 & -> & B2 & L2 & R2 & Q2).
  destruct (slot_encode_decode s3 H3) as (e3 & bs3 & o3 & -> & B3 & L3 & R3 & Q3).
  destruct (slot_encode_decode s4 H4) as (e4 & bs4 & o4 & -> & B4 & L4 & R4 & Q4).
  exists (sector_image (le_split 4 (or_int uid 0)) bs1 bs2 bs3 bs4).
  exists (MasterBootRecord.mk (Some (or_int uid 0)) [o1; o2; o3; o4]).
  assert (Hslots : list_eqb (option_eqb PartitionEntry.eqb) [o1; o2; o3; o4]
                     [Some e1; Some e2; Some e3; Some e4] = true).
  { cbn [list_eqb]. rewrite Q1, Q2, Q3, Q4. reflexivity. }
  split; [apply MasterBootRecord_to_bytes_image; assumption|].
  split; [apply sector_image_length; trivial|].
  split.
  { rewrite MasterBootRecord_read_image by trivial.
    rewrite R1, R2, R3, R4. cbn [bind].
    rewrite (le_combine_split_four _ Hid). reflexivity. }
  cbn [MasterBootRecord.unique_id MasterBootRecord.partitions].
  split; [rewrite Eid; reflexivity|]. split; [exact Hslots|].
  intros Hsome. unfold MasterBootRecord.eqb.
  cbn [MasterBootRecord.unique_id MasterBootRecord.partitions].
  rewrite Hslots, Eid.
  destruct uid as [u|]; [|contradiction].
  cbn [option_eqb]. rewrite Z.eqb_refl. reflexivity.
Qed.

Lemma mbr_encode_decode_witness :
  exists bs r,
    MasterBootRecord.__bytes__
      (MasterBootRecord.mk (Some 0xCAFE)
         [Some zero_entry; Some zero_entry; Some zero_entry; Some zero_entry])
    = Ok bs
    /\ MasterBootRecord.read (Buffer bs) false = Ok (Some r)
    /\ MasterBootRecord.unique_id r = Some 0xCAFE.
Proof.
  assert (Hz : slot_fits (Some zero_entry)).
  { exists zero_entry. split; [reflexivity|].
    unfold entry_fits, chs_in_range, CHSAddress.in_range. simpl.
    repeat split; try lia; eexists; (split; [reflexivity|]); simpl; lia. }
  destruct (mbr_encode_decode (Some 0xCAFE) _ _ _ _
              ltac:(simpl; lia) Hz Hz Hz Hz)
    as (bs & r & Hb & _ & Hr & Hu & _).
  exists bs, r. repeat split; assumption.
Defined.

(** * Further properties of the code *)

(** ** Addresses *)

(** X1. [LogicalBlockAddress.__bytes__] returns four bytes exactly when
    the sector is an unsigned 32-bit integer, and these bytes unpack
    (little-endian) to the sector; every other sector raises
    [struct.error]. *)
Theorem lba_bytes_unpack (a : LogicalBlockAddress.t) :
  (0 <= LogicalBlockAddress.sector a < 2 ^ 32 ->
   exists bs,
     LogicalBlockAddress.__bytes__ a = Ok bs
     /\ length bs = 4%nat
     /\ struct_unpack_I bs = Ok (LogicalBlockAddress.sector a))
  /\ (~ 0 <= LogicalBlockAddress.sector a < 2 ^ 32 ->
      LogicalBlockAddress.__bytes__ a = Raise struct_error).
Proof.
  destruct a as [n]. unfold LogicalBlockAddress.__bytes__.
  cbn [LogicalBlockAddress.sector]. split; intros Hn.
  - rewrite (struct_pack_I_ok n Hn). eexists. split; [reflexivity|].
    split; [reflexivity|].
    rewrite struct_unpack_I_ok by reflexivity.
    rewrite (le_combine_split_four n Hn). reflexivity.
  - unfold struct_pack_I.
    destruct (Z.leb_spec 0 n), (Z.ltb_spec n (2 ^ 32)); try reflexivity.
    exfalso. apply Hn. split; assumption.
Qed.

Lemma lba_bytes_unpack_witness :
  (exists bs,
     LogicalBlockAddress.__bytes__ (LogicalBlockAddress.mk 2048) = Ok bs
     /\ length bs = 4%nat
     /\ struct_unpack_I bs = Ok 2048)
  /\ LogicalBlockAddress.__bytes__ (LogicalBlockAddress.mk (-1))
     = Raise struct_error.
Proof.
  split.
  - apply (proj1 (lba_bytes_unpack (LogicalBlockAddress.mk 2048))).
    simpl. lia.
  - apply (proj2 (lba_bytes_unpack (LogicalBlockAddress.mk (-1)))).
    simpl. lia.
Defined.

(** X2. The derived fields agree: for a sector count other than 0 the
    bytes from the start's offset to the end of the last sector are
    [byte_count] many; for a sector count of 0, [end_block_address] is the
    start and [byte_count] is 0. *)
Theorem partition_byte_extent (e : PartitionEntry.t) :
  (PartitionEntry.sector_count e <> 0 ->
   LogicalBlockAddress.byte_offset (PartitionEntry.end_block_address e)
   + SECTOR_SIZE
   = LogicalBlockAddress.byte_offset (PartitionEntry.start_block_address e)
     + PartitionEntry.byte_count e)
  /\ (PartitionEntry.sector_count e = 0 ->
      PartitionEntry.end_block_address e = PartitionEntry.start_block_address e
      /\ PartitionEntry.byte_count e = 0).
Proof.
  unfold PartitionEntry.end_block_address, PartitionEntry.byte_count,
    LogicalBlockAddress.byte_offset, SECTOR_SIZE.
  split; intros Hc.
  - destruct (Z.eqb_spec (PartitionEntry.sector_count e) 0) as [E | _];
      [contradiction|].
    cbn [LogicalBlockAddress.sector]. lia.
  - rewrite Hc. split; reflexivity.
Qed.

Lemma partition_byte_extent_witness :
  LogicalBlockAddress.byte_offset
    (PartitionEntry.end_block_address
       (PartitionEntry.mk false (PartitionEntry.Int 0x83)
          (LogicalBlockAddress.mk 100) 50 None None))
  + SECTOR_SIZE
  = LogicalBlockAddress.byte_offset (LogicalBlockAddress.mk 100)
    + PartitionEntry.byte_count
        (PartitionEntry.mk false (PartitionEntry.Int 0x83)
           (LogicalBlockAddress.mk 100) 50 None None).
Proof.
  apply (proj1 (partition_byte_extent
                  (PartitionEntry.mk false (PartitionEntry.Int 0x83)
                     (LogicalBlockAddress.mk 100) 50 None None))).
  simpl. lia.
Defined.

(** X3. [CHSAddress.parse] reads three bytes: on fewer it raises
    IndexError, and on more it ignores everything after the third. *)
Theorem chs_parse_length (b : bytes) :
  ((length b < 3)%nat -> CHSAddress.parse b = Raise IndexError)
  /\ ((3 <= length b)%nat ->
      CHSAddress.parse b = CHSAddress.parse (firstn 3 b)
      /\ exists a, CHSAddress.parse b = Ok a /\ CHSAddress.in_range a).
Proof.
  split; intros Hb.
  - destruct b as [|b0 [|b1 [|b2 b]]]; try reflexivity.
    cbn [length] in Hb. lia.
  - destruct b as [|b0 [|b1 [|b2 b]]]; cbn [length] in Hb; try lia.
    split; [reflexivity|].
    exists (decoded_chs b0 b1 b2). split; [reflexivity|].
    apply (CHSAddress_parse_in_range b0 b1 b2). reflexivity.
Qed.

Lemma chs_parse_length_witness :
  CHSAddress.parse [Byte.x01; Byte.x02] = Raise IndexError
  /\ CHSAddress.parse [Byte.xfe; Byte.xff; Byte.xff; Byte.x07]
     = CHSAddress.parse [Byte.xfe; Byte.xff; Byte.xff].
Proof.
  split.
  - apply (proj1 (chs_parse_length [Byte.x01; Byte.x02])). simpl. lia.
  - apply (proj2 (chs_parse_length
                    [Byte.xfe; Byte.xff; Byte.xff; Byte.x07])).
    simpl. lia.
Defined.

Lemma CHSAddress_to_bytes_assertion (a : CHSAddress.t) :
  ~ chs_asserted a -> CHSAddress.__bytes__ a = Raise AssertionError.
Proof.
  destruct a as [c h s]. unfold chs_asserted, CHSAddress.__bytes__, assert.
  cbn [CHSAddress.cylinder CHSAddress.head CHSAddress.sector].
  intros Hout.
  destruct (Z.leb_spec 0 c), (Z.leb_spec c 1024),
    (Z.leb_spec 0 h), (Z.leb_spec h 255),
    (Z.leb_spec 0 s), (Z.leb_spec s 63); cbn; try reflexivity.
  exfalso. lia.
Qed.

(** What [CHSAddress.__bytes__] does, by the place of the address. *)
Lemma CHSAddress_to_bytes_cases (a : CHSAddress.t) :
  (CHSAddress.in_range a /\ exists bs, CHSAddress.__bytes__ a = Ok bs)
  \/ (CHSAddress.cylinder a = 1024 /\ chs_asserted a
      /\ CHSAddress.__bytes__ a = Raise ValueError)
  \/ (~ chs_asserted a /\ CHSAddress.__bytes__ a = Raise AssertionError).
Proof.
  destruct a as [c h s]. unfold CHSAddress.in_range, chs_asserted.
  cbn [CHSAddress.cylinder CHSAddress.head CHSAddress.sector].
  destruct (Z.le_gt_cases 0 c), (Z.le_gt_cases c 1024),
    (Z.le_gt_cases 0 h), (Z.le_gt_cases h 255),
    (Z.le_gt_cases 0 s), (Z.le_gt_cases s 63);
    try (right; right; split;
         [lia | apply CHSAddress_to_bytes_assertion; unfold chs_asserted;
                cbn [CHSAddress.cylinder CHSAddress.head CHSAddress.sector];
                lia]).
  destruct (Z.eq_dec c 1024) as [-> | Hc].
  - right. left. split; [reflexivity|]. split; [lia|].
    apply CHSAddress_to_bytes_1024; lia.
  - left. split; [lia|]. eexists.
    apply CHSAddress_to_bytes_in_range. unfold CHSAddress.in_range.
    cbn [CHSAddress.cylinder CHSAddress.head CHSAddress.sector]. lia.
Qed.

(** X4. Which exception [CHSAddress.__bytes__] raises: AssertionError
    exactly when a component is outside the asserted ranges (cylinder
    0..1024, head 0..255, sector 0..63), and ValueError exactly for the
    cylinder 1024 with head and sector in range, the one value the
    assertions accept and the second byte cannot hold. *)
Theorem chs_encode_exceptions (a : CHSAddress.t) :
  (CHSAddress.__bytes__ a = Raise AssertionError <-> ~ chs_asserted a)
  /\ (CHSAddress.__bytes__ a = Raise ValueError
      <-> CHSAddress.cylinder a = 1024 /\ chs_asserted a)
  /\ (forall e, CHSAddress.__bytes__ a = Raise e ->
                e = AssertionError \/ e = ValueError).
Proof.
  destruct (CHSAddress_to_bytes_cases a)
    as [(Hin & bs & Hok) | [(Hc & Has & Hval) | (Hout & Hass)]].
  - assert (Has : chs_asserted a)
      by (unfold chs_asserted, CHSAddress.in_range in *; lia).
    assert (Hne : CHSAddress.cylinder a <> 1024)
      by (unfold CHSAddress.in_range in Hin; lia).
    rewrite Hok. split; [|split].
    + split; intros H; [discriminate H | contradiction].
    + split; intros H; [discriminate H | tauto].
    + intros e He. discriminate He.
  - rewrite Hval. split; [|split].
    + split; intros H; [discriminate H | contradiction].
    + split; intros H; [tauto | reflexivity].
    + intros e He. injection He as <-. right. reflexivity.
  - rewrite Hass. split; [|split].
    + split; intros H; [exact Hout | reflexivity].
    + split; intros H; [discriminate H | tauto].
    + intros e He. injection He as <-. left. reflexivity.
Qed.

(** ** Partition entries *)

Lemma bind_ok_inv {A B} (m : result A) (k : A -> result B) (b : B) :
  bind m k = Ok b -> exists a, m = Ok a /\ k a = Ok b.
Proof.
  destruct m as [a | e]; cbn [bind]; intros H; [|discriminate H].
  exists a. split; [reflexivity | exact H].
Qed.

Lemma ok_inj {A} (x y : A) : Ok x = Ok y -> x = y.
Proof.
  intros H.
  exact (f_equal (fun r => match r with Ok v => v | Raise _ => x end) H).
Qed.

Lemma bytes_of_ints_one_inv (x : Z) (bs : bytes) :
  bytes_of_ints [x] = Ok bs -> 0 <= x < 256 /\ bs = [byte.of_Z x].
Proof.
  cbn [bytes_of_ints].
  destruct (Z.leb_spec 0 x), (Z.ltb_spec x 256); cbn [andb bind];
    intros E; try discriminate E.
  apply ok_inj in E. split; [lia | symmetry; exact E].
Qed.

Lemma struct_pack_I_inv (n : Z) (bs : bytes) :
  struct_pack_I n = Ok bs -> 0 <= n < 2 ^ 32 /\ bs = le_split 4 n.
Proof.
  unfold struct_pack_I.
  destruct (Z.leb_spec 0 n), (Z.ltb_spec n (2 ^ 32)); cbn [andb];
    intros E; try discriminate E.
  apply ok_inj in E. split; [split; assumption | symmetry; exact E].
Qed.

Lemma chs_bytes_of_object_inv (o : option CHSAddress.t) (bs : bytes) :
  bytes_of_object CHSAddress.__bytes__ o = Ok bs ->
  chs_in_range o /\ length bs = 3%nat.
Proof.
  destruct o as [a|]; cbn [bytes_of_object]; intros H; [|discriminate H].
  destruct (CHSAddress_to_bytes_cases a)
    as [(Hin & _) | [(_ & _ & E) | (_ & E)]];
    try (rewrite E in H; discriminate H).
  rewrite (CHSAddress_to_bytes_in_range a Hin) in H. apply ok_inj in H.
  subst bs. split; [exists a; split; [reflexivity | exact Hin] | reflexivity].
Qed.

(** When [PartitionEntry.__bytes__] returns, the entry fits its slot and
    the result has 16 bytes. *)
Lemma PartitionEntry_to_bytes_ok_inv (e : PartitionEntry.t) (bs : bytes) :
  PartitionEntry.__bytes__ e = Ok bs ->
  entry_fits e
  /\ chs_in_range (PartitionEntry.start_chs e)
  /\ chs_in_range (PartitionEntry.end_chs e)
  /\ length bs = 16%nat.
Proof.
  destruct e as [flag ty [st] cnt sc ec].
  unfold PartitionEntry.__bytes__, LogicalBlockAddress.__bytes__, entry_fits.
  cbn [PartitionEntry.bootable PartitionEntry.partition_type
       PartitionEntry.start_block_address PartitionEntry.sector_count
       PartitionEntry.start_chs PartitionEntry.end_chs
       LogicalBlockAddress.sector].
  intros H.
  apply bind_ok_inv in H. destruct H as (b0 & H0 & H).
  apply bind_ok_inv in H. destruct H as (b1 & H1 & H).
  apply bind_ok_inv in H. destruct H as (b2 & H2 & H).
  apply bind_ok_inv in H. destruct H as (b3 & H3 & H).
  apply bind_ok_inv in H. destruct H as (b4 & H4 & H).
  apply bind_ok_inv in H. destruct H as (b5 & H5 & H).
  apply ok_inj in H.
  apply bytes_of_ints_one_inv in H0. destruct H0 as [_ ->].
  apply chs_bytes_of_object_inv in H1. destruct H1 as [Hs L1].
  apply bytes_of_ints_one_inv in H2. destruct H2 as [Hty ->].
  apply chs_bytes_of_object_inv in H3. destruct H3 as [He L3].
  apply struct_pack_I_inv in H4. destruct H4 as [Hst ->].
  apply struct_pack_I_inv in H5. destruct H5 as [Hcnt ->].
  repeat split; try assumption; try lia.
  subst bs. rewrite !length_app, L1, L3, !length_le_split. reflexivity.
Qed.

(** X5. [PartitionEntry.__bytes__] returns exactly for the entries that
    fit the slot (a type in 0..255, a start sector and a sector count in
    0..2^32-1, both CHS fields present and in range), and then it
    returns 16 bytes. *)
Theorem partition_entry_encodable (e : PartitionEntry.t) :
  ((exists bs, PartitionEntry.__bytes__ e = Ok bs)
   <-> entry_fits e
       /\ chs_in_range (PartitionEntry.start_chs e)
       /\ chs_in_range (PartitionEntry.end_chs e))
  /\ (forall bs, PartitionEntry.__bytes__ e = Ok bs -> length bs = 16%nat).
Proof.
  split; [split|].
  - intros [bs H]. apply PartitionEntry_to_bytes_ok_inv in H. tauto.
  - intros (He & Hs & Hc).
    destruct (PartitionEntry_encode_decode e He Hs Hc) as (bs & _ & H & _).
    exists bs. exact H.
  - intros bs H. apply PartitionEntry_to_bytes_ok_inv in H. tauto.
Qed.

(** X6. The CHS fields are declared optional, and [__bytes__] has no
    case for [None]: an entry without start_chs raises TypeError, and so
    does an entry without end_chs whose start_chs is in range and whose
    type is a byte. *)
Theorem partition_entry_absent_chs_raises (e : PartitionEntry.t) :
  (PartitionEntry.start_chs e = None ->
   PartitionEntry.__bytes__ e = Raise TypeError)
  /\ (PartitionEntry.end_chs e = None ->
      chs_in_range (PartitionEntry.start_chs e) ->
      0 <= PartitionEntry.int (PartitionEntry.partition_type e) < 256 ->
      PartitionEntry.__bytes__ e = Raise TypeError).
Proof.
  destruct e as [flag ty st cnt sc ec]. unfold PartitionEntry.__bytes__.
  cbn [PartitionEntry.bootable PartitionEntry.partition_type
       PartitionEntry.start_block_address PartitionEntry.sector_count
       PartitionEntry.start_chs PartitionEntry.end_chs].
  assert (H0 : bytes_of_ints [if flag then 0x80 else 0x00]
               = Ok [if flag then Byte.x80 else Byte.x00])
    by (destruct flag; reflexivity).
  rewrite H0. cbn [bind]. split.
  - intros ->. reflexivity.
  - intros -> (sa & -> & Hsa) Hty. cbn [bytes_of_object].
    rewrite (CHSAddress_to_bytes_in_range sa Hsa). cbn [bind].
    rewrite (bytes_of_ints_ok [PartitionEntry.int ty])
      by (repeat constructor; lia).
    reflexivity.
Qed.

Lemma partition_entry_absent_chs_raises_witness :
  PartitionEntry.__bytes__
    (PartitionEntry.mk true (PartitionEntry.Id PartitionId.LINUX)
       (LogicalBlockAddress.mk 2048) 4096 None None)
  = Raise TypeError.
Proof.
  apply (proj1 (partition_entry_absent_chs_raises
                  (PartitionEntry.mk true (PartitionEntry.Id PartitionId.LINUX)
                     (LogicalBlockAddress.mk 2048) 4096 None None))).
  reflexivity.
Defined.

Lemma PartitionEntry_read_long (b : bytes) :
  (16 < length b)%nat -> PartitionEntry.read (Buffer b) = Raise struct_error.
Proof.
  intros Hb. unfold PartitionEntry.read, struct_unpack_BxxxBxxxII.
  cbn [bind].
  replace (length b <? PARTITION_ENTRY_SIZE)%nat with false
    by (symmetry; apply Nat.ltb_ge; unfold PARTITION_ENTRY_SIZE; lia).
  replace (Nat.eqb (length b) 16) with false
    by (symmetry; apply Nat.eqb_neq; lia).
  reflexivity.
Qed.

(** X7. [PartitionEntry.read] by the size of its input. A bytes object
    gives [None] when shorter than 16 bytes, an entry when 16 bytes long,
    and [struct.error] when longer (the buffer is unpacked whole). A
    stream gives [None] when it holds fewer than 16 bytes, and else the
    entry of its first 16 bytes. Anything else raises ValueError. *)
Theorem partition_entry_read_by_length (b : bytes) :
  ((length b < 16)%nat ->
   PartitionEntry.read (Buffer b) = Ok None
   /\ PartitionEntry.read (Stream b) = Ok None)
  /\ (length b = 16%nat ->
      exists e, PartitionEntry.read (Buffer b) = Ok (Some e))
  /\ ((16 < length b)%nat ->
      PartitionEntry.read (Buffer b) = Raise struct_error)
  /\ ((16 <= length b)%nat ->
      exists e, PartitionEntry.read (Stream b) = Ok (Some e)
                /\ PartitionEntry.read (Buffer (firstn 16 b)) = Ok (Some e))
  /\ PartitionEntry.read Unsupported = Raise ValueError.
Proof.
  assert (Hstream : PartitionEntry.read (Stream b)
                    = PartitionEntry.read (Buffer (firstn 16 b)))
    by reflexivity.
  split; [|split; [|split; [|split]]].
  - intros Hb. split; [apply PartitionEntry_read_short, Hb|].
    rewrite Hstream. apply PartitionEntry_read_short.
    rewrite length_firstn. lia.
  - apply PartitionEntry_read_present.
  - apply PartitionEntry_read_long.
  - intros Hb. rewrite Hstream.
    destruct (PartitionEntry_read_present (firstn 16 b)) as [e He];
      [rewrite length_firstn; lia|].
    exists e. split; exact He.
  - reflexivity.
Qed.

Lemma partition_entry_read_by_length_witness :
  PartitionEntry.read (Buffer (repeat Byte.x00 17)) = Raise struct_error.
Proof.
  apply (proj1 (proj2 (proj2 (partition_entry_read_by_length
                                (repeat Byte.x00 17))))).
  simpl. lia.
Defined.

Lemma decoded_chs_in_range (b0 b1 b2 : byte) :
  CHSAddress.in_range (decoded_chs b0 b1 b2).
Proof. apply (CHSAddress_parse_in_range b0 b1 b2). reflexivity. Qed.

(** X8. Every entry [PartitionEntry.read] decodes from 16 bytes is in
    the ranges of the slot: a type in 0..255, a start sector and a
    sector count below 2^32, both CHS fields present with a cylinder in
    0..1023, a head in 0..255 and a sector in 0..63; its
    [end_block_address] is not before its start, and its [byte_count]
    is below 2^41. *)
Theorem partition_entry_decoded_ranges (b : bytes) :
  length b = 16%nat ->
  exists e,
    PartitionEntry.read (Buffer b) = Ok (Some e)
    /\ entry_fits e
    /\ chs_in_range (PartitionEntry.start_chs e)
    /\ chs_in_range (PartitionEntry.end_chs e)
    /\ LogicalBlockAddress.sector (PartitionEntry.start_block_address e)
       <= LogicalBlockAddress.sector (PartitionEntry.end_block_address e)
       < 2 ^ 33
    /\ 0 <= PartitionEntry.byte_count e < 2 ^ 41.
Proof.
  intros Hb.
  destruct (length_sixteen b Hb)
    as (a & s0 & s1 & s2 & t & e0 & e1 & e2 & l0 & l1 & l2 & l3
        & c0 & c1 & c2 & c3 & ->).
  rewrite PartitionEntry_read_sixteen.
  destruct (decoded_type_byte t) as (p & -> & Hp). cbn [bind].
  eexists. split; [reflexivity|].
  pose proof (unsigned_range_256 t) as Ht.
  pose proof (le_combine_four_range [l0; l1; l2; l3] eq_refl) as Hl.
  pose proof (le_combine_four_range [c0; c1; c2; c3] eq_refl) as Hc.
  unfold entry_fits, chs_in_range, PartitionEntry.end_block_address,
    PartitionEntry.byte_count, SECTOR_SIZE.
  cbn [PartitionEntry.bootable PartitionEntry.partition_type
       PartitionEntry.start_block_address PartitionEntry.sector_count
       PartitionEntry.start_chs PartitionEntry.end_chs].
  remember (le_combine [l0; l1; l2; l3]) as st.
  remember (le_combine [c0; c1; c2; c3]) as cnt.
  change (2 ^ 32) with 4294967296 in *.
  change (2 ^ 33) with 8589934592.
  change (2 ^ 41) with 2199023255552.
  cbn [LogicalBlockAddress.sector].
  split; [rewrite Hp; lia|].
  split; [eexists; split; [reflexivity | apply decoded_chs_in_range]|].
  split; [eexists; split; [reflexivity | apply decoded_chs_in_range]|].
  split; [|lia].
  destruct (Z.eqb_spec cnt 0); cbn [LogicalBlockAddress.sector]; lia.
Qed.

Lemma partition_entry_decoded_ranges_witness :
  exists e,
    PartitionEntry.read (Buffer (repeat Byte.xff 16)) = Ok (Some e)
    /\ entry_fits e.
Proof.
  destruct (partition_entry_decoded_ranges (repeat Byte.xff 16) eq_refl)
    as (e & H1 & H2 & _).
  exists e. split; assumption.
Defined.

Lemma PartitionId_member_listed (m : PartitionId.t) :
  existsb (fun m' => PartitionId.value m' =? PartitionId.value m)
    (map snd PartitionId.members) = true.
Proof. destruct m; reflexivity. Qed.

Lemma in_members_values_iff (v : Z) :
  PartitionId.in_members_values v = true
  <-> exists m, PartitionId.value m = v.
Proof.
  unfold PartitionId.in_members_values. rewrite existsb_exists. split.
  - intros (m & _ & H). exists m. apply Z.eqb_eq, H.
  - intros (m & <-).
    pose proof (PartitionId_member_listed m) as H.
    apply existsb_exists in H. exact H.
Qed.

Lemma decoded_type_member (m : PartitionId.t) :
  decoded_type (PartitionId.value m) = Ok (PartitionEntry.Id m).
Proof. destruct m; reflexivity. Qed.

Lemma decoded_type_unregistered (v : Z) :
  (forall m, PartitionId.value m <> v) ->
  decoded_type v = Ok (PartitionEntry.Int v).
Proof.
  intros Hv. unfold decoded_type.
  destruct (PartitionId.in_members_values v) eqn:E; [|reflexivity].
  apply in_members_values_iff in E. destruct E as [m Hm].
  destruct (Hv m Hm).
Qed.

(** X9. The partition type of an entry decoded from 16 bytes, for every
    type byte: the member of [PartitionId] whose value is the byte when
    there is one (NT_NTFS for 0x07, which EX_FAT, HPFS and QNX2 only
    rename), and the byte as an int when no member has this value. *)
Theorem partition_type_decoding (b : bytes) (t : byte) :
  length b = 16%nat ->
  nth_error b 4 = Some t ->
  exists e,
    PartitionEntry.read (Buffer b) = Ok (Some e)
    /\ (forall m, PartitionId.value m = byte.unsigned t ->
                  PartitionEntry.partition_type e = PartitionEntry.Id m)
    /\ ((forall m, PartitionId.value m <> byte.unsigned t) ->
        PartitionEntry.partition_type e
        = PartitionEntry.Int (byte.unsigned t)).
Proof.
  intros Hb Ht.
  destruct (length_sixteen b Hb)
    as (a & s0 & s1 & s2 & t' & e0 & e1 & e2 & l0 & l1 & l2 & l3
        & c0 & c1 & c2 & c3 & ->).
  cbn [nth_error] in Ht. assert (t' = t) as -> by congruence.
  rewrite PartitionEntry_read_sixteen.
  destruct (decoded_type_byte t) as (p & Hp & _). rewrite Hp. cbn [bind].
  eexists. split; [reflexivity|].
  cbn [PartitionEntry.partition_type]. split.
  - intros m Hm. rewrite <- Hm, decoded_type_member in Hp.
    apply ok_inj in Hp. symmetry. exact Hp.
  - intros Hnone. rewrite (decoded_type_unregistered _ Hnone) in Hp.
    apply ok_inj in Hp. symmetry. exact Hp.
Qed.

Lemma partition_type_decoding_witness :
  exists e,
    PartitionEntry.read
      (Buffer (repeat Byte.x00 4 ++ Byte.x07 :: repeat Byte.x00 11))
    = Ok (Some e)
    /\ PartitionEntry.partition_type e
       = PartitionEntry.Id PartitionId.NT_NTFS
    /\ PartitionId.EX_FAT = PartitionId.NT_NTFS.
Proof.
  destruct (partition_type_decoding
              (repeat Byte.x00 4 ++ Byte.x07 :: repeat Byte.x00 11)
              Byte.x07 eq_refl eq_refl) as (e & He & Hm & _).
  exists e. split; [exact He|]. split; [|reflexivity].
  apply Hm. reflexivity.
Defined.

Lemma CHSAddress_eqb_eq (a b : CHSAddress.t) :
  CHSAddress.eqb a b = true -> a = b.
Proof.
  destruct a as [c h s], b as [c' h' s']. unfold CHSAddress.eqb.
  cbn [CHSAddress.cylinder CHSAddress.head CHSAddress.sector].
  rewrite !andb_true_iff, !Z.eqb_eq. intros [[-> ->] ->]. reflexivity.
Qed.

Lemma option_chs_eqb_eq (x y : option CHSAddress.t) :
  option_eqb CHSAddress.eqb x y = true -> x = y.
Proof.
  destruct x as [a|], y as [b|]; cbn [option_eqb]; intros H;
    try discriminate H; [|reflexivity].
  f_equal. apply CHSAddress_eqb_eq, H.
Qed.

(** X10. Two entries that are equal ([==]) are encoded alike: the same
    16 bytes, or the same exception. In particular a type given as an
    int and the member with this value make no difference. *)
Theorem partition_entry_eq_same_bytes (e1 e2 : PartitionEntry.t) :
  PartitionEntry.eqb e1 e2 = true ->
  PartitionEntry.__bytes__ e1 = PartitionEntry.__bytes__ e2.
Proof.
  destruct e1 as [f1 t1 [st1] n1 sc1 ec1], e2 as [f2 t2 [st2] n2 sc2 ec2].
  unfold PartitionEntry.eqb, PartitionEntry.partition_type_eqb,
    LogicalBlockAddress.eqb, PartitionEntry.__bytes__,
    LogicalBlockAddress.__bytes__.
  cbn [PartitionEntry.bootable PartitionEntry.partition_type
       PartitionEntry.start_block_address PartitionEntry.sector_count
       PartitionEntry.start_chs PartitionEntry.end_chs
       LogicalBlockAddress.sector].
  rewrite !andb_true_iff, !Z.eqb_eq, Bool.eqb_true_iff.
  intros [[[[[-> ->] ->] ->] Hs] He].
  rewrite (option_chs_eqb_eq _ _ Hs), (option_chs_eqb_eq _ _ He).
  reflexivity.
Qed.

Lemma partition_entry_eq_same_bytes_witness :
  PartitionEntry.__bytes__
    (PartitionEntry.mk true (PartitionEntry.Int 0x83)
       (LogicalBlockAddress.mk 2048) 4096
       (Some (CHSAddress.mk 0 32 33)) (Some (CHSAddress.mk 1023 254 63)))
  = PartitionEntry.__bytes__
      (PartitionEntry.mk true (PartitionEntry.Id PartitionId.LINUX)
         (LogicalBlockAddress.mk 2048) 4096
         (Some (CHSAddress.mk 0 32 33)) (Some (CHSAddress.mk 1023 254 63))).
Proof.
  apply (partition_entry_eq_same_bytes
           (PartitionEntry.mk true (PartitionEntry.Int 0x83)
              (LogicalBlockAddress.mk 2048) 4096
              (Some (CHSAddress.mk 0 32 33))
              (Some (CHSAddress.mk 1023 254 63)))
           (PartitionEntry.mk true (PartitionEntry.Id PartitionId.LINUX)
              (LogicalBlockAddress.mk 2048) 4096
              (Some (CHSAddress.mk 0 32 33))
              (Some (CHSAddress.mk 1023 254 63)))).
  reflexivity.
Defined.

(** ** Sectors *)

Lemma slice_firstn (b : bytes) (n lo hi : nat) :
  (hi <= n)%nat -> slice (firstn n b) lo hi = slice b lo hi.
Proof.
  intros H. unfold slice.
  rewrite skipn_firstn_comm, firstn_firstn.
  f_equal. lia.
Qed.

Lemma read_slots_firstn (data : bytes) :
  read_slots (firstn 512 data) = read_slots data.
Proof.
  unfold read_slots, PARTITION_OFFSETS, PARTITION_ENTRY_SIZE.
  cbn [comprehension].
  rewrite !slice_firstn by lia. reflexivity.
Qed.

Lemma MasterBootRecord_read_firstn (data : bytes) (ignore : bool) :
  MasterBootRecord.read (Buffer (firstn 512 data)) ignore
  = MasterBootRecord.read (Buffer data) ignore.
Proof.
  rewrite !MasterBootRecord_read_buffer, read_slots_firstn.
  rewrite !slice_firstn by lia. reflexivity.
Qed.

(** X11. [MasterBootRecord.read] looks at the first 512 bytes only:
    a bytes object gives what its first 512 bytes give, whatever
    follows them, and a stream gives what a bytes object with the same
    content gives. *)
Theorem mbr_read_first_sector (data : bytes) (ignore : bool) :
  MasterBootRecord.read (Buffer data) ignore
  = MasterBootRecord.read (Buffer (firstn 512 data)) ignore
  /\ MasterBootRecord.read (Stream data) ignore
     = MasterBootRecord.read (Buffer data) ignore.
Proof.
  split.
  - symmetry. apply MasterBootRecord_read_firstn.
  - rewrite MasterBootRecord_read_stream. apply MasterBootRecord_read_firstn.
Qed.

(** Decoding 16 bytes and encoding the entry. *)
Lemma PartitionEntry_reencode (b : bytes) :
  length b = 16%nat ->
  exists e,
    PartitionEntry.read (Buffer b) = Ok (Some e)
    /\ PartitionEntry.__bytes__ e = Ok (normalized_slot b).
Proof.
  intros Hb.
  destruct (length_sixteen b Hb)
    as (a & s0 & s1 & s2 & t & e0 & e1 & e2 & l0 & l1 & l2 & l3
        & c0 & c1 & c2 & c3 & ->).
  rewrite PartitionEntry_read_sixteen.
  destruct (decoded_type_byte t) as (p & -> & Hp).
  unfold normalized_slot. cbn [bind hd tl].
  eexists. split; [reflexivity|].
  rewrite (PartitionEntry_to_bytes_decoded _ p s0 s1 s2 t) by exact Hp.
  rewrite bootable_bit. reflexivity.
Qed.

Lemma normalized_slot_length (b : bytes) :
  length b = 16%nat -> length (normalized_slot b) = 16%nat.
Proof. destruct b; [discriminate | intros H; exact H]. Qed.

(** The attribute byte counts for its bit 7 only. *)
Lemma PartitionEntry_read_normalized (b : bytes) :
  length b = 16%nat ->
  PartitionEntry.read (Buffer (normalized_slot b))
  = PartitionEntry.read (Buffer b).
Proof.
  intros Hb.
  destruct (length_sixteen b Hb)
    as (a & s0 & s1 & s2 & t & e0 & e1 & e2 & l0 & l1 & l2 & l3
        & c0 & c1 & c2 & c3 & ->).
  unfold normalized_slot. cbn [hd tl].
  rewrite !PartitionEntry_read_sixteen, !bootable_bit.
  destruct (Z.testbit (byte.unsigned a) 7); reflexivity.
Qed.

Lemma PartitionEntry_read_fits (b : bytes) (e : PartitionEntry.t) :
  PartitionEntry.read (Buffer b) = Ok (Some e) -> slot_fits (Some e).
Proof.
  intros H.
  assert (Hb : length b = 16%nat).
  { destruct (Nat.lt_trichotomy (length b) 16) as [Hlt | [Heq | Hgt]].
    - rewrite (PartitionEntry_read_short b Hlt) in H. discriminate H.
    - exact Heq.
    - rewrite (PartitionEntry_read_long b Hgt) in H. discriminate H. }
  destruct (PartitionEntry_reencode b Hb) as (e' & He' & Hbytes).
  rewrite He' in H. apply ok_inj in H.
  assert (e' = e) as -> by congruence.
  apply PartitionEntry_to_bytes_ok_inv in Hbytes.
  exists e. split; [reflexivity | tauto].
Qed.

(** A full sector, with what is known of the record. *)
Lemma MasterBootRecord_read_sector_fits (data : bytes) (ignore : bool) :
  (512 <= length data)%nat ->
  exists p1 p2 p3 p4,
    slot_fits (Some p1) /\ slot_fits (Some p2)
    /\ slot_fits (Some p3) /\ slot_fits (Some p4)
    /\ PartitionEntry.read (Buffer (slice data 0x1BE 0x1CE)) = Ok (Some p1)
    /\ PartitionEntry.read (Buffer (slice data 0x1CE 0x1DE)) = Ok (Some p2)
    /\ PartitionEntry.read (Buffer (slice data 0x1DE 0x1EE)) = Ok (Some p3)
    /\ PartitionEntry.read (Buffer (slice data 0x1EE 0x1FE)) = Ok (Some p4)
    /\ MasterBootRecord.read (Buffer data) ignore =
       Ok (if ignore || (le_combine (slice data 0x1FE 0x200) =? VALID_MARKER)
           then Some (MasterBootRecord.mk
                        (Some (le_combine (slice data 0x1B8 0x1BC)))
                        [Some p1; Some p2; Some p3; Some p4])
           else None).
Proof.
  intros Hlen. rewrite MasterBootRecord_read_buffer.
  rewrite struct_unpack_I_ok by (rewrite slice_length; lia).
  rewrite struct_unpack_H_ok by (rewrite slice_length; lia).
  unfold read_slots, PARTITION_OFFSETS, PARTITION_ENTRY_SIZE.
  cbn [comprehension bind].
  change (0x1BE + 16)%nat with 0x1CE%nat.
  change (0x1CE + 16)%nat with 0x1DE%nat.
  change (0x1DE + 16)%nat with 0x1EE%nat.
  change (0x1EE + 16)%nat with 0x1FE%nat.
  destruct (PartitionEntry_read_present (slice data 0x1BE 0x1CE))
    as [p1 E1]; [rewrite slice_length; lia|].
  destruct (PartitionEntry_read_present (slice data 0x1CE 0x1DE))
    as [p2 E2]; [rewrite slice_length; lia|].
  destruct (PartitionEntry_read_present (slice data 0x1DE 0x1EE))
    as [p3 E3]; [rewrite slice_length; lia|].
  destruct (PartitionEntry_read_present (slice data 0x1EE 0x1FE))
    as [p4 E4]; [rewrite slice_length; lia|].
  exists p1, p2, p3, p4.
  pose proof (PartitionEntry_read_fits _ _ E1).
  pose proof (PartitionEntry_read_fits _ _ E2).
  pose proof (PartitionEntry_read_fits _ _ E3).
  pose proof (PartitionEntry_read_fits _ _ E4).
  rewrite E1, E2, E3, E4. cbn [bind].
  repeat (split; [assumption || reflexivity|]).
  destruct (ignore || _); reflexivity.
Qed.

Lemma MasterBootRecord_read_stream_buffer (data : bytes) (ignore : bool) :
  MasterBootRecord.read (Stream data) ignore
  = MasterBootRecord.read (Buffer data) ignore.
Proof.
  rewrite MasterBootRecord_read_stream. apply MasterBootRecord_read_firstn.
Qed.

(** X12. What [MasterBootRecord.read] returns. A record it returns,
    for bytes or for a readable stream, has a signature in 0..2^32-1 and
    four present entries that all fit their slots: the optional fields
    are never [None] there. [None] is returned only when the marker is
    checked. On a bytes object an exception is raised exactly when it is
    shorter than 512 bytes, and it is [struct.error]; an argument that
    is neither bytes nor a stream raises ValueError. *)
Theorem mbr_read_outcomes (fp : source) (ignore : bool) :
  (forall r, MasterBootRecord.read fp ignore = Ok (Some r) ->
     (exists u, MasterBootRecord.unique_id r = Some u /\ 0 <= u < 2 ^ 32)
     /\ exists p1 p2 p3 p4,
          MasterBootRecord.partitions r = [Some p1; Some p2; Some p3; Some p4]
          /\ slot_fits (Some p1) /\ slot_fits (Some p2)
          /\ slot_fits (Some p3) /\ slot_fits (Some p4))
  /\ (MasterBootRecord.read fp ignore = Ok None -> ignore = false)
  /\ (forall data e,
        MasterBootRecord.read (Buffer data) ignore = Raise e
        <-> e = struct_error /\ (length data < 512)%nat)
  /\ MasterBootRecord.read Unsupported ignore = Raise ValueError.
Proof.
  assert (Hbuf : forall data,
    (forall r, MasterBootRecord.read (Buffer data) ignore = Ok (Some r) ->
       (exists u, MasterBootRecord.unique_id r = Some u /\ 0 <= u < 2 ^ 32)
       /\ exists p1 p2 p3 p4,
            MasterBootRecord.partitions r
            = [Some p1; Some p2; Some p3; Some p4]
            /\ slot_fits (Some p1) /\ slot_fits (Some p2)
            /\ slot_fits (Some p3) /\ slot_fits (Some p4))
    /\ (MasterBootRecord.read (Buffer data) ignore = Ok None -> ignore = false)
    /\ (forall e, MasterBootRecord.read (Buffer data) ignore = Raise e
                  <-> e = struct_error /\ (length data < 512)%nat)).
  { intros data.
    destruct (Nat.lt_ge_cases (length data) 512) as [Hlt | Hge].
    - rewrite (MasterBootRecord_read_short data ignore Hlt).
      split; [intros r H; discriminate H|].
      split; [intros H; discriminate H|].
      intros e. split.
      + intros H. injection H as <-. split; [reflexivity | exact Hlt].
      + intros [-> _]. reflexivity.
    - destruct (MasterBootRecord_read_sector_fits data ignore Hge)
        as (p1 & p2 & p3 & p4 & F1 & F2 & F3 & F4 & _ & _ & _ & _ & ->).
      split; [|split].
      + intros r H. apply ok_inj in H.
        destruct (ignore || _); [|discriminate H].
        injection H as <-.
        cbn [MasterBootRecord.unique_id MasterBootRecord.partitions].
        split.
        * eexists. split; [reflexivity|].
          apply le_combine_four_range. rewrite slice_length. lia.
        * exists p1, p2, p3, p4. repeat split; assumption.
      + intros H. apply ok_inj in H.
        destruct ignore; [discriminate H | reflexivity].
      + intros e. split; [intros H; discriminate H | intros [_ Hlt]; lia]. }
  split; [|split; [|split; [|reflexivity]]].
  - destruct fp as [data | data |].
    + apply Hbuf.
    + rewrite MasterBootRecord_read_stream_buffer. apply Hbuf.
    + intros r H. discriminate H.
  - destruct fp as [data | data |].
    + apply Hbuf.
    + rewrite MasterBootRecord_read_stream_buffer. apply Hbuf.
    + intros H. discriminate H.
  - intros data. apply Hbuf.
Qed.

(** A record read from a buffer, its encoding, and the record read from
    the encoding. *)
Lemma MasterBootRecord_read_reencode (data : bytes) (ignore : bool)
  (r : MasterBootRecord.t) :
  MasterBootRecord.read (Buffer data) ignore = Ok (Some r) ->
  (512 <= length data)%nat
  /\ MasterBootRecord.__bytes__ r =
     Ok (sector_image (slice data 0x1B8 0x1BC)
           (normalized_slot (slice data 0x1BE 0x1CE))
           (normalized_slot (slice data 0x1CE 0x1DE))
           (normalized_slot (slice data 0x1DE 0x1EE))
           (normalized_slot (slice data 0x1EE 0x1FE)))
  /\ MasterBootRecord.read
       (Buffer (sector_image (slice data 0x1B8 0x1BC)
                  (normalized_slot (slice data 0x1BE 0x1CE))
                  (normalized_slot (slice data 0x1CE 0x1DE))
                  (normalized_slot (slice data 0x1DE 0x1EE))
                  (normalized_slot (slice data 0x1EE 0x1FE)))) false
     = Ok (Some r).
Proof.
  intros Hr.
  destruct (Nat.lt_ge_cases (length data) 512) as [Hlt | Hge];
    [rewrite (MasterBootRecord_read_short data ignore Hlt) in Hr;
     discriminate Hr|].
  split; [exact Hge|].
  destruct (MasterBootRecord_read_sector_fits data ignore Hge)
    as (p1 & p2 & p3 & p4 & _ & _ & _ & _ & E1 & E2 & E3 & E4 & Hread).
  rewrite Hread in Hr. apply ok_inj in Hr.
  destruct (ignore || _); [|discriminate Hr].
  injection Hr as <-.
  assert (L0 : length (slice data 0x1B8 0x1BC) = 4%nat)
    by (rewrite slice_length; lia).
  assert (L1 : length (slice data 0x1BE 0x1CE) = 16%nat)
    by (rewrite slice_length; lia).
  assert (L2 : length (slice data 0x1CE 0x1DE) = 16%nat)
    by (rewrite slice_length; lia).
  assert (L3 : length (slice data 0x1DE 0x1EE) = 16%nat)
    by (rewrite slice_length; lia).
  assert (L4 : length (slice data 0x1EE 0x1FE) = 16%nat)
    by (rewrite slice_length; lia).
  pose proof (le_combine_four_range _ L0) as Hu.
  assert (Hor : or_int (Some (le_combine (slice data 0x1B8 0x1BC))) 0
                = le_combine (slice data 0x1B8 0x1BC)).
  { cbn [or_int].
    destruct (Z.eqb_spec (le_combine (slice data 0x1B8 0x1BC)) 0) as [E | _];
      [symmetry; exact E | reflexivity]. }
  assert (Hb : forall b p, length b = 16%nat ->
                 PartitionEntry.read (Buffer b) = Ok (Some p) ->
                 PartitionEntry.__bytes__ p = Ok (normalized_slot b)).
  { intros b p Lb Ep. destruct (PartitionEntry_reencode b Lb) as (e & He & Hbs).
    rewrite He in Ep. apply ok_inj in Ep.
    assert (e = p) as -> by congruence. exact Hbs. }
  split.
  - rewrite (MasterBootRecord_to_bytes_image _ p1 p2 p3 p4
               (normalized_slot (slice data 0x1BE 0x1CE))
               (normalized_slot (slice data 0x1CE 0x1DE))
               (normalized_slot (slice data 0x1DE 0x1EE))
               (normalized_slot (slice data 0x1EE 0x1FE)));
      try (apply normalized_slot_length; assumption);
      try (apply Hb; assumption);
      [|rewrite Hor; exact Hu].
    rewrite Hor. rewrite <- L0 at 1. rewrite split_le_combine. reflexivity.
  - rewrite MasterBootRecord_read_image
      by (try apply normalized_slot_length; assumption).
    rewrite !PartitionEntry_read_normalized by assumption.
    rewrite E1, E2, E3, E4. reflexivity.
Qed.

(** X13. Encoding a record that [read] returned for a buffer gives the
    first sector of the buffer with the 440 bytes before the signature
    and the two bytes after it set to zero, the attribute byte of each
    slot reduced to its bit 7, and the marker 0x55, 0xAA at the end
    (also when the marker was ignored): the signature and the bytes 1 to
    15 of every slot are the buffer's. *)
Theorem mbr_decode_encode (data : bytes) (ignore : bool)
  (r : MasterBootRecord.t) :
  MasterBootRecord.read (Buffer data) ignore = Ok (Some r) ->
  MasterBootRecord.__bytes__ r =
  Ok (repeat Byte.x00 0x1B8 ++ slice data 0x1B8 0x1BC ++ [Byte.x00; Byte.x00]
        ++ normalized_slot (slice data 0x1BE 0x1CE)
        ++ normalized_slot (slice data 0x1CE 0x1DE)
        ++ normalized_slot (slice data 0x1DE 0x1EE)
        ++ normalized_slot (slice data 0x1EE 0x1FE)
        ++ [Byte.x55; Byte.xaa]).
Proof.
  intros Hr.
  destruct (MasterBootRecord_read_reencode data ignore r Hr) as (_ & H & _).
  exact H.
Qed.

Lemma mbr_decode_encode_witness :
  exists r,
    MasterBootRecord.read (Buffer (repeat Byte.xff 512)) true = Ok (Some r)
    /\ MasterBootRecord.__bytes__ r
       = Ok (repeat Byte.x00 0x1B8 ++ repeat Byte.xff 4 ++ repeat Byte.x00 2
               ++ (Byte.x80 :: repeat Byte.xff 15)
               ++ (Byte.x80 :: repeat Byte.xff 15)
               ++ (Byte.x80 :: repeat Byte.xff 15)
               ++ (Byte.x80 :: repeat Byte.xff 15)
               ++ [Byte.x55; Byte.xaa]).
Proof.
  destruct (MasterBootRecord_read_sector (repeat Byte.xff 512) true eq_refl)
    as (p1 & p2 & p3 & p4 & Hr).
  eexists. split; [exact Hr|].
  exact (mbr_decode_encode (repeat Byte.xff 512) true _ Hr).
Defined.

(** X14. A record that [read] returned goes through the round trip
    unchanged: [__bytes__] returns 512 bytes, and [read] of these bytes,
    marker checked, from a bytes object or from a stream, returns the
    same record. *)
Theorem mbr_decoded_roundtrip (fp : source) (ignore : bool)
  (r : MasterBootRecord.t) :
  MasterBootRecord.read fp ignore = Ok (Some r) ->
  exists bs,
    MasterBootRecord.__bytes__ r = Ok bs
    /\ length bs = 512%nat
    /\ MasterBootRecord.read (Buffer bs) false = Ok (Some r)
    /\ MasterBootRecord.read (Stream bs) false = Ok (Some r).
Proof.
  intros Hr.
  assert (Hdata : exists data,
             MasterBootRecord.read (Buffer data) ignore = Ok (Some r)).
  { destruct fp as [data | data |].
    - exists data. exact Hr.
    - exists data. rewrite <- MasterBootRecord_read_stream_buffer. exact Hr.
    - discriminate Hr. }
  destruct Hdata as [data Hd].
  destruct (MasterBootRecord_read_reencode data ignore r Hd)
    as (Hlen & Hb & Hback).
  eexists. split; [exact Hb|].
  split.
  - apply sector_image_length;
      try apply normalized_slot_length; rewrite slice_length; lia.
  - split; [exact Hback|].
    rewrite MasterBootRecord_read_stream_buffer. exact Hback.
Qed.

Lemma mbr_decoded_roundtrip_witness :
  exists r bs,
    MasterBootRecord.read (Stream (repeat Byte.xff 600)) true = Ok (Some r)
    /\ MasterBootRecord.__bytes__ r = Ok bs
    /\ MasterBootRecord.read (Buffer bs) false = Ok (Some r).
Proof.
  destruct (MasterBootRecord_read_sector (repeat Byte.xff 512) true eq_refl)
    as (p1 & p2 & p3 & p4 & Hr).
  assert (Hs : MasterBootRecord.read (Stream (repeat Byte.xff 600)) true
               = MasterBootRecord.read (Buffer (repeat Byte.xff 512)) true)
    by reflexivity.
  rewrite <- Hs in Hr.
  destruct (mbr_decoded_roundtrip _ _ _ Hr) as (bs & Hb & _ & Hback & _).
  eexists. exists bs. split; [exact Hr|]. split; assumption.
Defined.

(** ** The loop over the slots *)

Lemma slot_bytes_inv (o : option PartitionEntry.t) (b : bytes) :
  bytes_of_object PartitionEntry.__bytes__ o = Ok b ->
  slot_fits o /\ length b = 16%nat.
Proof.
  destruct o as [e|]; cbn [bytes_of_object]; intros H; [|discriminate H].
  apply PartitionEntry_to_bytes_ok_inv in H.
  split; [exists e; split; [reflexivity | tauto] | tauto].
Qed.

Lemma slot_fits_bytes (o : option PartitionEntry.t) :
  slot_fits o ->
  exists b, bytes_of_object PartitionEntry.__bytes__ o = Ok b.
Proof.
  intros (e & -> & He & Hs & Hc).
  destruct (PartitionEntry_encode_decode e He Hs Hc) as (bs & _ & H & _).
  exists bs. exact H.
Qed.

Lemma encode_slots_inv (ps : list (option PartitionEntry.t)) :
  forall bss, encode_slots ps = Ok bss ->
  Forall slot_fits ps /\ Forall (fun b => length b = 16%nat) bss.
Proof.
  unfold encode_slots.
  induction ps as [|o ps IH]; cbn [comprehension]; intros bss H.
  - apply ok_inj in H. subst bss. split; constructor.
  - apply bind_ok_inv in H. destruct H as (b & Hb & H).
    apply bind_ok_inv in H. destruct H as (bs & Hbs & H).
    apply ok_inj in H. subst bss.
    apply slot_bytes_inv in Hb. destruct (IH bs Hbs) as [IH1 IH2].
    split; constructor; tauto.
Qed.

Lemma encode_slots_fits (ps : list (option PartitionEntry.t)) :
  Forall slot_fits ps -> exists bss, encode_slots ps = Ok bss.
Proof.
  unfold encode_slots.
  induction 1 as [|o ps Ho _ [bss IH]]; cbn [comprehension].
  - eexists. reflexivity.
  - destruct (slot_fits_bytes o Ho) as [b ->]. rewrite IH.
    eexists. reflexivity.
Qed.

Lemma nth_slot_length (bss : list bytes) (i : nat) :
  Forall (fun b => length b = 16%nat) bss ->
  length (nth i bss zero_slot) = 16%nat.
Proof.
  intros H. revert i.
  induction H as [|b bss Hb _ IH]; intros [|i]; cbn [nth];
    try reflexivity; [exact Hb | apply IH].
Qed.

Ltac step_slot :=
  match goal with
  | |- context [bytes_of_object PartitionEntry.__bytes__ ?s] =>
      let b := fresh "b" in
      let E := fresh "E" in
      let L := fresh "L" in
      destruct (bytes_of_object PartitionEntry.__bytes__ s) as [b | ?] eqn:E;
      [ pose proof (proj2 (slot_bytes_inv _ _ E)) as L; clear E;
        explicit_bytes b L
      | reflexivity ]
  end.

(** The sector of a record with at most four slots: the slots that are
    not there stay zero. *)
Lemma MasterBootRecord_to_bytes_slots (uid : option Z)
  (ps : list (option PartitionEntry.t)) :
  (length ps <= 4)%nat ->
  MasterBootRecord.__bytes__ (MasterBootRecord.mk uid ps) =
  (id <- struct_pack_I (or_int uid 0) ;;
   bss <- encode_slots ps ;;
   Ok (sector_image id (nth 0 bss zero_slot) (nth 1 bss zero_slot)
         (nth 2 bss zero_slot) (nth 3 bss zero_slot))).
Proof.
  intros Hlen. unfold MasterBootRecord.__bytes__, encode_slots.
  cbn [MasterBootRecord.unique_id MasterBootRecord.partitions].
  destruct (struct_pack_I (or_int uid 0)) as [id | e] eqn:Eid;
    [|reflexivity].
  apply struct_pack_I_inv in Eid. destruct Eid as [_ ->].
  destruct (length_four (le_split 4 (or_int uid 0)) eq_refl)
    as (i0 & i1 & i2 & i3 & ->).
  cbn [bind].
  destruct ps as [|s1 [|s2 [|s3 [|s4 [|s5 rest]]]]];
    cbn [length] in Hlen; try lia;
    cbn [MasterBootRecord.write_partitions comprehension];
    repeat step_slot; reflexivity.
Qed.

Lemma write_partitions_overflow (ps : list (option PartitionEntry.t)) :
  forall i wr, (i <= 4)%nat -> (4 < i + length ps)%nat ->
               raises (MasterBootRecord.write_partitions i ps wr).
Proof.
  induction ps as [|slot rest IH]; intros i wr Hi Hlen;
    cbn [length] in Hlen; [lia|].
  cbn [MasterBootRecord.write_partitions].
  destruct (list_getitem PARTITION_OFFSETS i) as [off | e] eqn:Eoff;
    [cbn [bind] | exists e; reflexivity].
  assert (i < 4)%nat.
  { unfold list_getitem in Eoff.
    destruct (nth_error PARTITION_OFFSETS i) eqn:En; [|discriminate Eoff].
    assert (Hn : nth_error PARTITION_OFFSETS i <> None) by congruence.
    apply nth_error_Some in Hn. exact Hn. }
  destruct (bytes_of_object PartitionEntry.__bytes__ slot) as [bs | e];
    [cbn [bind] | exists e; reflexivity].
  apply IH; lia.
Qed.

Lemma MasterBootRecord_to_bytes_overflow (m : MasterBootRecord.t) :
  (4 < length (MasterBootRecord.partitions m))%nat ->
  raises (MasterBootRecord.__bytes__ m).
Proof.
  intros Hlen. unfold MasterBootRecord.__bytes__.
  destruct (struct_pack_I (or_int (MasterBootRecord.unique_id m) 0))
    as [id | e]; [cbn [bind] | exists e; reflexivity].
  destruct (write_partitions_overflow (MasterBootRecord.partitions m) 0
              (write id (seek UNIQUE_ID_OFFSET
                           (BytesIO_new (repeat Byte.x00 512))))
              ltac:(lia) Hlen) as [e He].
  exists e. rewrite He. reflexivity.
Qed.

Lemma MasterBootRecord_to_bytes_at_most_four (m : MasterBootRecord.t) :
  (exists bs, MasterBootRecord.__bytes__ m = Ok bs) ->
  (length (MasterBootRecord.partitions m) <= 4)%nat.
Proof.
  intros [bs H].
  destruct (Nat.le_gt_cases (length (MasterBootRecord.partitions m)) 4)
    as [Hle | Hgt]; [exact Hle|].
  destruct (MasterBootRecord_to_bytes_overflow m Hgt) as [e He].
  rewrite He in H. discriminate H.
Qed.

(** X15. [MasterBootRecord.__bytes__] returns exactly for the records
    with a signature that is absent or in 0..2^32-1, at most four
    slots, and every slot present and fitting its 16 bytes. *)
Theorem mbr_encodable (m : MasterBootRecord.t) :
  (exists bs, MasterBootRecord.__bytes__ m = Ok bs)
  <-> signature_fits (MasterBootRecord.unique_id m)
      /\ (length (MasterBootRecord.partitions m) <= 4)%nat
      /\ Forall slot_fits (MasterBootRecord.partitions m).
Proof.
  destruct m as [uid ps].
  cbn [MasterBootRecord.unique_id MasterBootRecord.partitions]. split.
  - intros [bs H].
    assert (Hlen : (length ps <= 4)%nat)
      by (apply (MasterBootRecord_to_bytes_at_most_four (MasterBootRecord.mk uid ps));
          exists bs; exact H).
    rewrite (MasterBootRecord_to_bytes_slots uid ps Hlen) in H.
    apply bind_ok_inv in H. destruct H as (id & Hid & H).
    apply bind_ok_inv in H. destruct H as (bss & Hbss & _).
    apply struct_pack_I_inv in Hid. destruct Hid as [Hid _].
    apply encode_slots_inv in Hbss.
    split; [|split; [exact Hlen | tauto]].
    destruct uid as [u|]; cbn [signature_fits or_int] in *; [|exact I].
    destruct (Z.eqb_spec u 0) as [-> | _]; [lia | exact Hid].
  - intros (Hsig & Hlen & Hfits).
    rewrite (MasterBootRecord_to_bytes_slots uid ps Hlen).
    rewrite (struct_pack_I_ok _ (proj1 (or_int_fits uid Hsig))).
    destruct (encode_slots_fits ps Hfits) as [bss ->].
    eexists. reflexivity.
Qed.

(** X16. Whatever [MasterBootRecord.__bytes__] returns is a sector: 512
    bytes, zero before the signature at 0x1B8 and in the two bytes after
    it, with the marker 0x55, 0xAA at 0x1FE, so that [read] accepts it
    with the marker checked and returns a record. *)
Theorem mbr_bytes_is_sector (m : MasterBootRecord.t) (bs : bytes) :
  MasterBootRecord.__bytes__ m = Ok bs ->
  length bs = 512%nat
  /\ slice bs 0 0x1B8 = repeat Byte.x00 0x1B8
  /\ slice bs 0x1BC 0x1BE = [Byte.x00; Byte.x00]
  /\ slice bs 0x1FE 0x200 = [Byte.x55; Byte.xaa]
  /\ exists r, MasterBootRecord.read (Buffer bs) false = Ok (Some r).
Proof.
  intros H.
  assert (Hok : exists bs', MasterBootRecord.__bytes__ m = Ok bs')
    by (exists bs; exact H).
  apply MasterBootRecord_to_bytes_at_most_four in Hok.
  destruct m as [uid ps].
  cbn [MasterBootRecord.partitions] in Hok.
  rewrite (MasterBootRecord_to_bytes_slots uid ps Hok) in H.
  apply bind_ok_inv in H. destruct H as (id & Hid & H).
  apply bind_ok_inv in H. destruct H as (bss & Hbss & H).
  apply ok_inj in H.
  apply struct_pack_I_inv in Hid. destruct Hid as [_ ->].
  apply encode_slots_inv in Hbss. destruct Hbss as [_ Hlens].
  pose proof (nth_slot_length bss 0 Hlens) as L1.
  pose proof (nth_slot_length bss 1 Hlens) as L2.
  pose proof (nth_slot_length bss 2 Hlens) as L3.
  pose proof (nth_slot_length bss 3 Hlens) as L4.
  revert H L1 L2 L3 L4.
  generalize (nth 0 bss zero_slot) (nth 1 bss zero_slot)
    (nth 2 bss zero_slot) (nth 3 bss zero_slot).
  intros b1 b2 b3 b4 <- L1 L2 L3 L4.
  destruct (length_four (le_split 4 (or_int uid 0)) eq_refl)
    as (i0 & i1 & i2 & i3 & ->).
  split; [apply sector_image_length; trivial|].
  split; [reflexivity|].
  split.
  { explicit_bytes b1 L1. reflexivity. }
  split.
  { explicit_bytes b1 L1. explicit_bytes b2 L2.
    explicit_bytes b3 L3. explicit_bytes b4 L4. reflexivity. }
  rewrite MasterBootRecord_read_image by trivial.
  destruct (PartitionEntry_read_present b1 L1) as [e1 ->].
  destruct (PartitionEntry_read_present b2 L2) as [e2 ->].
  destruct (PartitionEntry_read_present b3 L3) as [e3 ->].
  destruct (PartitionEntry_read_present b4 L4) as [e4 ->].
  eexists. reflexivity.
Qed.

Lemma mbr_bytes_is_sector_witness :
  exists bs,
    MasterBootRecord.__bytes__
      (MasterBootRecord.mk (Some 0xCAFE) [Some zero_entry]) = Ok bs
    /\ length bs = 512%nat
    /\ slice bs 0x1FE 0x200 = [Byte.x55; Byte.xaa].
Proof.
  assert (H : MasterBootRecord.__bytes__
                (MasterBootRecord.mk (Some 0xCAFE) [Some zero_entry])
              = Ok (sector_image (le_split 4 0xCAFE) zero_slot zero_slot
                      zero_slot zero_slot))
    by (vm_compute; reflexivity).
  eexists. split; [exact H|].
  destruct (mbr_bytes_is_sector _ _ H) as (H1 & _ & _ & H2 & _).
  split; assumption.
Defined.

(** X17. A record with more than four slots is never encoded:
    [__bytes__] raises, and when the signature and the first four slots
    are good it is the IndexError of [PARTITION_OFFSETS[4]]. *)
Theorem mbr_encode_too_many_slots :
  (forall m, (4 < length (MasterBootRecord.partitions m))%nat ->
             raises (MasterBootRecord.__bytes__ m))
  /\ (forall uid s1 s2 s3 s4 s5 rest,
        signature_fits uid ->
        slot_fits s1 -> slot_fits s2 -> slot_fits s3 -> slot_fits s4 ->
        MasterBootRecord.__bytes__
          (MasterBootRecord.mk uid (s1 :: s2 :: s3 :: s4 :: s5 :: rest))
        = Raise IndexError).
Proof.
  split; [exact MasterBootRecord_to_bytes_overflow|].
  intros uid s1 s2 s3 s4 s5 rest Hsig H1 H2 H3 H4.
  destruct (slot_fits_bytes s1 H1) as [b1 E1].
  destruct (slot_fits_bytes s2 H2) as [b2 E2].
  destruct (slot_fits_bytes s3 H3) as [b3 E3].
  destruct (slot_fits_bytes s4 H4) as [b4 E4].
  unfold MasterBootRecord.__bytes__.
  cbn [MasterBootRecord.unique_id MasterBootRecord.partitions].
  rewrite (struct_pack_I_ok _ (proj1 (or_int_fits uid Hsig))).
  cbn [bind MasterBootRecord.write_partitions].
  rewrite E1, E2, E3, E4. reflexivity.
Qed.

Lemma mbr_encode_too_many_slots_witness :
  MasterBootRecord.__bytes__
    (MasterBootRecord.mk None
       [Some zero_entry; Some zero_entry; Some zero_entry; Some zero_entry;
        Some zero_entry])
  = Raise IndexError.
Proof.
  assert (Hz : slot_fits (Some zero_entry)).
  { exists zero_entry. split; [reflexivity|].
    unfold entry_fits, chs_in_range, CHSAddress.in_range. simpl.
    repeat split; try lia; eexists; (split; [reflexivity|]); simpl; lia. }
  exact (proj2 mbr_encode_too_many_slots None _ _ _ _ (Some zero_entry) []
           I Hz Hz Hz Hz).
Defined.

(** X18. A record with fewer than four slots is encoded like the record
    with all-zero entries added up to four (the slots the loop does not
    reach keep the zeros of the buffer): the same bytes, or the same
    exception. *)
Theorem mbr_encode_missing_slots (uid : option Z)
  (ps : list (option PartitionEntry.t)) :
  (length ps <= 4)%nat ->
  MasterBootRecord.__bytes__ (MasterBootRecord.mk uid ps)
  = MasterBootRecord.__bytes__
      (MasterBootRecord.mk uid
         (ps ++ repeat (Some zero_entry) (4 - length ps))).
Proof.
  intros Hlen.
  rewrite (MasterBootRecord_to_bytes_slots uid ps Hlen).
  rewrite MasterBootRecord_to_bytes_slots
    by (rewrite length_app, repeat_length; lia).
  destruct (struct_pack_I (or_int uid 0)) as [id | e]; [|reflexivity].
  cbn [bind]. unfold encode_slots.
  destruct ps as [|s1 [|s2 [|s3 [|s4 [|s5 rest]]]]];
    cbn [length] in Hlen; try lia;
    cbn [length Nat.sub repeat app comprehension];
    repeat match goal with
    | |- context [bytes_of_object PartitionEntry.__bytes__ ?s] =>
        is_var s;
        destruct (bytes_of_object PartitionEntry.__bytes__ s);
        [cbn [bind] | reflexivity]
    end;
    reflexivity.
Qed.

Lemma mbr_encode_missing_slots_witness :
  MasterBootRecord.__bytes__ (MasterBootRecord.mk (Some 1) [])
  = MasterBootRecord.__bytes__
      (MasterBootRecord.mk (Some 1)
         [Some zero_entry; Some zero_entry; Some zero_entry; Some zero_entry]).
Proof.
  apply (mbr_encode_missing_slots (Some 1) []). simpl. lia.
Defined.

(** X19. Entries with the same encoding are equal ([==]): the 16 bytes
    determine the bootable flag, the value of the type, the start
    sector, the sector count and both CHS addresses. *)
Theorem partition_entry_same_bytes_eq (e1 e2 : PartitionEntry.t)
  (bs : bytes) :
  PartitionEntry.__bytes__ e1 = Ok bs ->
  PartitionEntry.__bytes__ e2 = Ok bs ->
  PartitionEntry.eqb e1 e2 = true.
Proof.
  intros H1 H2.
  pose proof (PartitionEntry_to_bytes_ok_inv e1 bs H1) as (F1 & S1 & C1 & _).
  pose proof (PartitionEntry_to_bytes_ok_inv e2 bs H2) as (F2 & S2 & C2 & _).
  destruct (PartitionEntry_encode_decode e1 F1 S1 C1)
    as (bs1 & p1 & B1 & _ & P1 & R1).
  destruct (PartitionEntry_encode_decode e2 F2 S2 C2)
    as (bs2 & p2 & B2 & _ & P2 & R2).
  rewrite H1 in B1. apply ok_inj in B1. subst bs1.
  rewrite H2 in B2. apply ok_inj in B2. subst bs2.
  rewrite R1 in R2. apply ok_inj in R2.
  destruct e1 as [f1 t1 st1 n1 sc1 ec1], e2 as [f2 t2 st2 n2 sc2 ec2].
  cbn [PartitionEntry.bootable PartitionEntry.partition_type
       PartitionEntry.start_block_address PartitionEntry.sector_count
       PartitionEntry.start_chs PartitionEntry.end_chs] in *.
  assert (E : PartitionEntry.mk f1 p1 st1 n1 sc1 ec1
              = PartitionEntry.mk f2 p2 st2 n2 sc2 ec2) by congruence.
  assert (Hf : f1 = f2) by congruence.
  assert (Hp : p1 = p2) by congruence.
  assert (Hst : st1 = st2) by congruence.
  assert (Hn : n1 = n2) by congruence.
  assert (Hsc : sc1 = sc2) by congruence.
  assert (Hec : ec1 = ec2) by congruence.
  subst f2 p2 st2 n2 sc2 ec2.
  unfold PartitionEntry.eqb, PartitionEntry.partition_type_eqb,
    LogicalBlockAddress.eqb.
  cbn [PartitionEntry.bootable PartitionEntry.partition_type
       PartitionEntry.start_block_address PartitionEntry.sector_count
       PartitionEntry.start_chs PartitionEntry.end_chs].
  rewrite <- P1, <- P2, !Z.eqb_refl, !option_chs_eqb_refl, Bool.eqb_reflx.
  reflexivity.
Qed.

Lemma partition_entry_same_bytes_eq_witness :
  PartitionEntry.eqb
    (PartitionEntry.mk false (PartitionEntry.Int 0) (LogicalBlockAddress.mk 0)
       0 (Some (CHSAddress.mk 0 0 0)) (Some (CHSAddress.mk 0 0 0)))
    (PartitionEntry.mk false (PartitionEntry.Id PartitionId.EMPTY)
       (LogicalBlockAddress.mk 0)
       0 (Some (CHSAddress.mk 0 0 0)) (Some (CHSAddress.mk 0 0 0)))
  = true.
Proof.
  apply (partition_entry_same_bytes_eq _ _ (repeat Byte.x00 16));
    vm_compute; reflexivity.
Defined.

(** X20. [ignore_valid_marker] changes one outcome only: where [read]
    with the marker checked returns [None], [read] with the marker
    ignored returns a record. A record returned with the marker checked
    is returned with the marker ignored, and an exception raised in one
    case is raised in the other. *)
Theorem mbr_ignore_marker (fp : source) :
  (forall r, MasterBootRecord.read fp false = Ok (Some r) ->
             MasterBootRecord.read fp true = Ok (Some r))
  /\ (MasterBootRecord.read fp false = Ok None ->
      exists r, MasterBootRecord.read fp true = Ok (Some r))
  /\ (forall e, MasterBootRecord.read fp false = Raise e
                <-> MasterBootRecord.read fp true = Raise e).
Proof.
  assert (Hbuf : forall data,
    (forall r, MasterBootRecord.read (Buffer data) false = Ok (Some r) ->
               MasterBootRecord.read (Buffer data) true = Ok (Some r))
    /\ (MasterBootRecord.read (Buffer data) false = Ok None ->
        exists r, MasterBootRecord.read (Buffer data) true = Ok (Some r))
    /\ (forall e, MasterBootRecord.read (Buffer data) false = Raise e
                  <-> MasterBootRecord.read (Buffer data) true = Raise e)).
  { intros data.
    destruct (Nat.lt_ge_cases (length data) 512) as [Hlt | Hge].
    - rewrite !(MasterBootRecord_read_short data _ Hlt).
      split; [intros r H; discriminate H|].
      split; [intros H; discriminate H|].
      intros e. reflexivity.
    - rewrite !MasterBootRecord_read_buffer.
      rewrite struct_unpack_I_ok by (rewrite slice_length; lia).
      rewrite struct_unpack_H_ok by (rewrite slice_length; lia).
      destruct (read_slots_present data Hge) as (p1 & p2 & p3 & p4 & ->).
      cbn [bind orb].
      destruct (le_combine (slice data 0x1FE 0x200) =? VALID_MARKER).
      + split; [intros r H; exact H|].
        split; [intros H; discriminate H|].
        intros e. reflexivity.
      + split; [intros r H; discriminate H|].
        split; [intros _; eexists; reflexivity|].
        intros e. split; intros H; discriminate H. }
  destruct fp as [data | data |].
  - apply Hbuf.
  - rewrite !MasterBootRecord_read_stream_buffer. apply Hbuf.
  - split; [intros r H; discriminate H|].
    split; [intros H; discriminate H|].
    intros e. reflexivity.
Qed.
